(** * Radiation pressure on panelled bodies: reflection law, target models
      and the time-stamped acceleration cache.

    Shallow embedding of
    - [src/astro/electromagnetism/reflectionLaw.cpp]
      ([SpecularDiffuseMixReflectionLaw], [computeMirrorlikeReflection]),
    - [Tudat/Astrodynamics/ElectroMagnetism/panelledRadiationPressure.h]
      ([PanelledRadiationPressureAcceleration]),
    - the target models exercised by
      [unitTestRadiationPressureTargetModel.cpp],
    - [tudat/astro/aerodynamics/aerodynamicCoefficientInterface.h]
      (coefficient frames, independent variables, control surfaces),
    - [Tudat/Astrodynamics/Propagators/singleStateTypeDerivative.cpp],
    - [Astrodynamics/EnvironmentModels/AtmosphereModel/exponentialAtmosphere.cpp].

    Numerical conventions.  A C++ [double] that carries a physical quantity
    (components of vectors, reflectivities, areas, pressures, masses) is
    read as a real number: rounding, overflow and infinities are not
    modelled.  A [double] that carries a time stamp is kept as an IEEE-754
    binary64 value, because the cache test of [updateMembers] relies on the
    IEEE rule that a NaN compares unequal to everything, itself included. *)

From Stdlib Require Import Floats.
From Stdlib Require Import Reals Lra.
From stdpp Require Import base option list strings gmap.

Set Default Proof Using "Type".

(* ================================================================== *)
(** ** Eigen: the fragment of [Eigen::Vector3d] the sources use        *)
(* ================================================================== *)

Module Eigen.

Local Open Scope R_scope.

Record Vector3d : Type := Vector3d_of { coeff0 : R; coeff1 : R; coeff2 : R }.

(** [Eigen::Vector3d::Zero()] *)
Definition Zero : Vector3d := Vector3d_of 0 0 0.

(** [a + b], [a - b], [-a], [s * a], [a / s] *)
Definition add (a b : Vector3d) : Vector3d :=
  Vector3d_of (coeff0 a + coeff0 b) (coeff1 a + coeff1 b) (coeff2 a + coeff2 b).
Definition sub (a b : Vector3d) : Vector3d :=
  Vector3d_of (coeff0 a - coeff0 b) (coeff1 a - coeff1 b) (coeff2 a - coeff2 b).
Definition opp (a : Vector3d) : Vector3d :=
  Vector3d_of (- coeff0 a) (- coeff1 a) (- coeff2 a).
Definition scale (s : R) (a : Vector3d) : Vector3d :=
  Vector3d_of (s * coeff0 a) (s * coeff1 a) (s * coeff2 a).
Definition divide (a : Vector3d) (s : R) : Vector3d :=
  Vector3d_of (coeff0 a / s) (coeff1 a / s) (coeff2 a / s).

(** [a.dot(b)], [a.squaredNorm()], [a.norm()] *)
Definition dot (a b : Vector3d) : R :=
  coeff0 a * coeff0 b + coeff1 a * coeff1 b + coeff2 a * coeff2 b.
Definition squaredNorm (a : Vector3d) : R := dot a a.
Definition norm (a : Vector3d) : R := sqrt (squaredNorm a).

(** [a.normalize()]: divides by the norm when the squared norm is
    positive and leaves the vector alone otherwise. *)
Definition normalize (a : Vector3d) : Vector3d :=
  if Rlt_dec 0 (squaredNorm a) then divide a (sqrt (squaredNorm a)) else a.

(** [NumTraits<double>::dummy_precision()] *)
Definition dummy_precision : R := / 10 ^ 12.

(** [a.isApprox(b)], Eigen's fuzzy comparison with the default precision:
    [(a - b).squaredNorm() <= prec * prec * min(a.squaredNorm(), b.squaredNorm())]. *)
Definition isApprox_prop (a b : Vector3d) : Prop :=
  squaredNorm (sub a b)
    <= dummy_precision * dummy_precision * Rmin (squaredNorm a) (squaredNorm b).

Definition isApprox (a b : Vector3d) : bool :=
  if Rle_dec (squaredNorm (sub a b))
             (dummy_precision * dummy_precision * Rmin (squaredNorm a) (squaredNorm b))
  then true else false.

End Eigen.

Import Eigen.

Declare Scope vec_scope.
Delimit Scope vec_scope with vec.
Bind Scope vec_scope with Vector3d.
Infix "+" := Eigen.add : vec_scope.
Infix "-" := Eigen.sub : vec_scope.
Notation "- a" := (Eigen.opp a) : vec_scope.
Infix "*:" := Eigen.scale (at level 40, no associativity).
Infix "·" := Eigen.dot (at level 40, left associativity).

(** Comparisons of reals as the booleans the C++ conditions compute. *)
Definition Rleb (a b : R) : bool := if Rle_dec a b then true else false.
Definition Rltb (a b : R) : bool := if Rlt_dec a b then true else false.
Definition Rgeb (a b : R) : bool := Rleb b a.
Definition Rgtb (a b : R) : bool := Rltb b a.

(* ================================================================== *)
(** ** reflectionLaw.cpp                                               *)
(* ================================================================== *)

Section ReflectionLaw.

Local Open Scope R_scope.

(** The data members of [SpecularDiffuseMixReflectionLaw] that
    [reflectionLaw.cpp] reads. *)
Record SpecularDiffuseMixReflectionLaw : Type := {
  absorptivity_ : R;
  specularReflectivity_ : R;
  diffuseReflectivity : R;
  withInstantaneousLambertianReradiation_ : bool
}.

(** [computeMirrorlikeReflection], reflectionLaw.cpp l.78-92 *)
Definition computeMirrorlikeReflection
    (vectorToMirror surfaceNormal : Vector3d) : Vector3d :=
  let vectorDotNormal := vectorToMirror · surfaceNormal in
  if Rgeb vectorDotNormal 0 then
    Eigen.Zero
  else
    (vectorToMirror - (2 * vectorDotNormal) *: surfaceNormal)%vec.

(** [SpecularDiffuseMixReflectionLaw::evaluateReflectedFraction],
    reflectionLaw.cpp l.20-47.  [mathematical_constants::PI] is the
    real number pi. *)
Definition evaluateReflectedFraction (law : SpecularDiffuseMixReflectionLaw)
    (surfaceNormal incomingDirection observerDirection : Vector3d) : R :=
  let cosBetweenNormalAndIncoming := surfaceNormal · (- incomingDirection)%vec in
  let cosBetweenNormalAndObserver := surfaceNormal · observerDirection in
  if Rleb cosBetweenNormalAndIncoming 0 || Rleb cosBetweenNormalAndObserver 0 then
    0
  else
    let diffuseReflectance := diffuseReflectivity law / PI in
    let mirrorOfIncomingDirection :=
      computeMirrorlikeReflection incomingDirection surfaceNormal in
    if Eigen.isApprox observerDirection mirrorOfIncomingDirection then
      let specularReflectance :=
        specularReflectivity_ law / cosBetweenNormalAndIncoming in
      diffuseReflectance + specularReflectance
    else
      diffuseReflectance.

(** [SpecularDiffuseMixReflectionLaw::evaluateReactionVector],
    reflectionLaw.cpp l.49-76 *)
Definition evaluateReactionVector (law : SpecularDiffuseMixReflectionLaw)
    (surfaceNormal incomingDirection : Vector3d) : Vector3d :=
  let cosBetweenNormalAndIncoming := surfaceNormal · (- incomingDirection)%vec in
  if Rleb cosBetweenNormalAndIncoming 0 then
    Eigen.Zero
  else
    let reactionFromIncidence :=
      (absorptivity_ law + diffuseReflectivity law) *: incomingDirection in
    let reactionFromReflection :=
      (- (2 / 3 * diffuseReflectivity law
          + 2 * specularReflectivity_ law * cosBetweenNormalAndIncoming))
        *: surfaceNormal in
    let reactionFromInstantaneousReradiation :=
      if withInstantaneousLambertianReradiation_ law then
        (- (2 / 3 * absorptivity_ law)) *: surfaceNormal
      else
        Eigen.Zero in
    (reactionFromIncidence + reactionFromReflection
       + reactionFromInstantaneousReradiation)%vec.

End ReflectionLaw.

(* ================================================================== *)
(** ** Radiation pressure target models                                *)
(* ================================================================== *)

Section TargetModels.

Local Open Scope R_scope.

(** [physical_constants::SPEED_OF_LIGHT]; its header is not among the
    sources, so the value stays a parameter. *)
Variable speedOfLight : R.

(** Modelled from the spec: [reflectionLawFromSpecularAndDiffuseReflectivity]
    (its definition is not among the sources).  The three coefficients
    sum to one, and the law does not reradiate. *)
Definition reflectionLawFromSpecularAndDiffuseReflectivity
    (specularReflectivity diffuseReflectivity' : R) : SpecularDiffuseMixReflectionLaw :=
  {| absorptivity_ := 1 - specularReflectivity - diffuseReflectivity';
     specularReflectivity_ := specularReflectivity;
     diffuseReflectivity := diffuseReflectivity';
     withInstantaneousLambertianReradiation_ := false |}.

(** Modelled from the spec: the equivalent-surface target model
    [CannonballRadiationPressureTargetModel] (radiationPressureTargetModel.cpp
    is not among the sources). *)
Record CannonballRadiationPressureTargetModel : Type := {
  referenceArea : R;
  radiationPressureCoefficient : R
}.

(** Modelled from the spec: [CannonballRadiationPressureTargetModel::evaluateRadiationPressureForce],
    "force = (irradiance / speedOfLight) · referenceArea ·
    radiationPressureCoefficient · sourceToTargetDirection". *)
Definition Cannonball_evaluateRadiationPressureForce
    (model : CannonballRadiationPressureTargetModel)
    (sourceIrradiance : R) (sourceToTargetDirection : Vector3d) : Vector3d :=
  let radiationPressure := sourceIrradiance / speedOfLight in
  let forceMagnitude :=
    radiationPressure * referenceArea model * radiationPressureCoefficient model in
  forceMagnitude *: sourceToTargetDirection.

(** Modelled from the spec: [PaneledRadiationPressureTargetModel::Panel]
    with its normal as evaluated by the last [updateMembers]. *)
Record Panel : Type := {
  area : R;
  surfaceNormal : Vector3d;
  reflectionLaw : SpecularDiffuseMixReflectionLaw
}.

(** Modelled from the spec: [PaneledRadiationPressureTargetModel::evaluateRadiationPressureForce],
    "for each panel: reactionVector = reflectionLaw.evaluateReactionVector(
    panel.normal, sourceToTargetDirection); force += (irradiance /
    speedOfLight) · panel.area · reactionVector". *)
Definition Paneled_evaluateRadiationPressureForce (panels : list Panel)
    (sourceIrradiance : R) (sourceToTargetDirection : Vector3d) : Vector3d :=
  foldl
    (fun force panel =>
       let reactionVector :=
         evaluateReactionVector (reflectionLaw panel) (surfaceNormal panel)
                                sourceToTargetDirection in
       (force + (sourceIrradiance / speedOfLight * area panel) *: reactionVector)%vec)
    Eigen.Zero panels.

End TargetModels.

(** [TUDAT_CHECK_MATRIX_CLOSE]-style comparison: every coefficient of the
    two vectors agrees within [tolerance]. *)
Definition closeWithin (tolerance : R) (a b : Vector3d) : Prop :=
  (Rabs (coeff0 a - coeff0 b) <= tolerance
   /\ Rabs (coeff1 a - coeff1 b) <= tolerance
   /\ Rabs (coeff2 a - coeff2 b) <= tolerance)%R.

(* ================================================================== *)
(** ** panelledRadiationPressure.h                                     *)
(* ================================================================== *)

(** Modelled from the spec: [TUDAT_NAN], the "not-a-time" sentinel (the
    macro's header is not among the sources).  It is an IEEE NaN. *)
Definition TUDAT_NAN : float := nan.

(** The provider callbacks ([boost::function< T( ) >]) an acceleration
    model holds, as tags for the record of invocations. *)
Inductive ProviderCall : Type :=
| call_sourcePositionFunction_
| call_acceleratedBodyPositionFunction_
| call_radiationPressureFunction_
| call_massFunction_
| call_panelSurfaceNormalFunctions_ (i : nat)
| call_panelAreaFunctions_ (i : nat)
| call_panelEmmisivittyFunctions_ (i : nat)
| call_panelDiffuseReflectionCoefficientFunctions_ (i : nat).

(** Calls that go to a per-panel provider. *)
Definition isPanelCall (c : ProviderCall) : bool :=
  match c with
  | call_panelSurfaceNormalFunctions_ _ | call_panelAreaFunctions_ _
  | call_panelEmmisivittyFunctions_ _
  | call_panelDiffuseReflectionCoefficientFunctions_ _ => true
  | _ => false
  end.

Section Effects.

(** The environment the providers read (ephemerides, attitude, body
    properties).  Providers are side-effect free: they read [World]. *)
Context {World : Type}.

(** Computations of the acceleration model: they read the world, append
    to the record of provider invocations, and are undefined ([None])
    where the C++ indexes a [std::vector] out of range. *)
Definition Eff (A : Type) : Type :=
  World -> list ProviderCall -> option (A * list ProviderCall).

#[export] Instance Eff_ret : MRet Eff :=
  fun A a _ calls => Some (a, calls).

#[export] Instance Eff_bind : MBind Eff :=
  fun A B k m w calls =>
    match m w calls with
    | Some (a, calls') => k a w calls'
    | None => None
    end.

(** [f( )] for a provider [f], recorded under the tag [c]. *)
Definition invoke {A : Type} (c : ProviderCall) (f : World -> A) : Eff A :=
  fun w calls => Some (f w, calls ++ [c]).

(** [v[ i ]] on a [std::vector]. *)
Definition at_index {A : Type} (v : list A) (i : nat) : Eff A :=
  fun _ calls => match v !! i with Some a => Some (a, calls) | None => None end.

(** [for( int i = start; i < start + count; i++ ) body], threading the
    object through the iterations. *)
Fixpoint forRange {S : Type} (start count : nat) (body : nat -> S -> Eff S)
    (s : S) : Eff S :=
  match count with
  | O => mret s
  | Datatypes.S count' => s' ← body start s; forRange (Datatypes.S start) count' body s'
  end.

End Effects.

Arguments Eff : clear implicits.


Section PanelledRadiationPressure.

Local Open Scope R_scope.

Context {World : Type}.

(** [computeSinglePanelNormalizedRadiationPressureForce] is declared in
    panelledRadiationPressure.h (l.43-45) and defined in a file that is
    not among the sources: it stays a parameter. *)
Variable computeSinglePanelNormalizedRadiationPressureForce :
  Vector3d -> Vector3d -> R -> R -> R -> Vector3d.

(** The data members of [PanelledRadiationPressureAcceleration]
    (panelledRadiationPressure.h l.234-316) and [currentTime_], which it
    inherits from [basic_astrodynamics::AccelerationModel]. *)
Record PanelledRadiationPressureAcceleration : Type := {
  sourcePositionFunction_ : World -> Vector3d;
  acceleratedBodyPositionFunction_ : World -> Vector3d;
  radiationPressureFunction_ : World -> R;
  panelEmmisivittyFunctions_ : list (World -> R);
  panelDiffuseReflectionCoefficientFunctions_ : list (World -> R);
  panelSurfaceNormalFunctions_ : list (World -> Vector3d);
  panelAreaFunctions_ : list (World -> R);
  massFunction_ : World -> R;
  currentPanelAccelerations_ : list Vector3d;
  numberOfPanels_ : nat;
  currentRadiationPressure_ : R;
  currentNormalizedVectorToSource_ : Vector3d;
  currentDistanceToSource_ : R;
  currentMass_ : R;
  currentAcceleration_ : Vector3d;
  currentTime_ : float
}.

Local Abbreviation Self := PanelledRadiationPressureAcceleration.

(** Assignments to single members. *)
Definition set_currentPanelAccelerations_ (v : list Vector3d) (self : Self) : Self :=
  {| sourcePositionFunction_ := sourcePositionFunction_ self;
     acceleratedBodyPositionFunction_ := acceleratedBodyPositionFunction_ self;
     radiationPressureFunction_ := radiationPressureFunction_ self;
     panelEmmisivittyFunctions_ := panelEmmisivittyFunctions_ self;
     panelDiffuseReflectionCoefficientFunctions_ :=
       panelDiffuseReflectionCoefficientFunctions_ self;
     panelSurfaceNormalFunctions_ := panelSurfaceNormalFunctions_ self;
     panelAreaFunctions_ := panelAreaFunctions_ self;
     massFunction_ := massFunction_ self;
     currentPanelAccelerations_ := v;
     numberOfPanels_ := numberOfPanels_ self;
     currentRadiationPressure_ := currentRadiationPressure_ self;
     currentNormalizedVectorToSource_ := currentNormalizedVectorToSource_ self;
     currentDistanceToSource_ := currentDistanceToSource_ self;
     currentMass_ := currentMass_ self;
     currentAcceleration_ := currentAcceleration_ self;
     currentTime_ := currentTime_ self |}.

Definition set_currentRadiationPressure_ (v : R) (self : Self) : Self :=
  {| sourcePositionFunction_ := sourcePositionFunction_ self;
     acceleratedBodyPositionFunction_ := acceleratedBodyPositionFunction_ self;
     radiationPressureFunction_ := radiationPressureFunction_ self;
     panelEmmisivittyFunctions_ := panelEmmisivittyFunctions_ self;
     panelDiffuseReflectionCoefficientFunctions_ :=
       panelDiffuseReflectionCoefficientFunctions_ self;
     panelSurfaceNormalFunctions_ := panelSurfaceNormalFunctions_ self;
     panelAreaFunctions_ := panelAreaFunctions_ self;
     massFunction_ := massFunction_ self;
     currentPanelAccelerations_ := currentPanelAccelerations_ self;
     numberOfPanels_ := numberOfPanels_ self;
     currentRadiationPressure_ := v;
     currentNormalizedVectorToSource_ := currentNormalizedVectorToSource_ self;
     currentDistanceToSource_ := currentDistanceToSource_ self;
     currentMass_ := currentMass_ self;
     currentAcceleration_ := currentAcceleration_ self;
     currentTime_ := currentTime_ self |}.

Definition set_currentNormalizedVectorToSource_ (v : Vector3d) (self : Self) : Self :=
  {| sourcePositionFunction_ := sourcePositionFunction_ self;
     acceleratedBodyPositionFunction_ := acceleratedBodyPositionFunction_ self;
     radiationPressureFunction_ := radiationPressureFunction_ self;
     panelEmmisivittyFunctions_ := panelEmmisivittyFunctions_ self;
     panelDiffuseReflectionCoefficientFunctions_ :=
       panelDiffuseReflectionCoefficientFunctions_ self;
     panelSurfaceNormalFunctions_ := panelSurfaceNormalFunctions_ self;
     panelAreaFunctions_ := panelAreaFunctions_ self;
     massFunction_ := massFunction_ self;
     currentPanelAccelerations_ := currentPanelAccelerations_ self;
     numberOfPanels_ := numberOfPanels_ self;
     currentRadiationPressure_ := currentRadiationPressure_ self;
     currentNormalizedVectorToSource_ := v;
     currentDistanceToSource_ := currentDistanceToSource_ self;
     currentMass_ := currentMass_ self;
     currentAcceleration_ := currentAcceleration_ self;
     currentTime_ := currentTime_ self |}.

Definition set_currentDistanceToSource_ (v : R) (self : Self) : Self :=
  {| sourcePositionFunction_ := sourcePositionFunction_ self;
     acceleratedBodyPositionFunction_ := acceleratedBodyPositionFunction_ self;
     radiationPressureFunction_ := radiationPressureFunction_ self;
     panelEmmisivittyFunctions_ := panelEmmisivittyFunctions_ self;
     panelDiffuseReflectionCoefficientFunctions_ :=
       panelDiffuseReflectionCoefficientFunctions_ self;
     panelSurfaceNormalFunctions_ := panelSurfaceNormalFunctions_ self;
     panelAreaFunctions_ := panelAreaFunctions_ self;
     massFunction_ := massFunction_ self;
     currentPanelAccelerations_ := currentPanelAccelerations_ self;
     numberOfPanels_ := numberOfPanels_ self;
     currentRadiationPressure_ := currentRadiationPressure_ self;
     currentNormalizedVectorToSource_ := currentNormalizedVectorToSource_ self;
     currentDistanceToSource_ := v;
     currentMass_ := currentMass_ self;
     currentAcceleration_ := currentAcceleration_ self;
     currentTime_ := currentTime_ self |}.

Definition set_currentMass_ (v : R) (self : Self) : Self :=
  {| sourcePositionFunction_ := sourcePositionFunction_ self;
     acceleratedBodyPositionFunction_ := acceleratedBodyPositionFunction_ self;
     radiationPressureFunction_ := radiationPressureFunction_ self;
     panelEmmisivittyFunctions_ := panelEmmisivittyFunctions_ self;
     panelDiffuseReflectionCoefficientFunctions_ :=
       panelDiffuseReflectionCoefficientFunctions_ self;
     panelSurfaceNormalFunctions_ := panelSurfaceNormalFunctions_ self;
     panelAreaFunctions_ := panelAreaFunctions_ self;
     massFunction_ := massFunction_ self;
     currentPanelAccelerations_ := currentPanelAccelerations_ self;
     numberOfPanels_ := numberOfPanels_ self;
     currentRadiationPressure_ := currentRadiationPressure_ self;
     currentNormalizedVectorToSource_ := currentNormalizedVectorToSource_ self;
     currentDistanceToSource_ := currentDistanceToSource_ self;
     currentMass_ := v;
     currentAcceleration_ := currentAcceleration_ self;
     currentTime_ := currentTime_ self |}.

Definition set_currentAcceleration_ (v : Vector3d) (self : Self) : Self :=
  {| sourcePositionFunction_ := sourcePositionFunction_ self;
     acceleratedBodyPositionFunction_ := acceleratedBodyPositionFunction_ self;
     radiationPressureFunction_ := radiationPressureFunction_ self;
     panelEmmisivittyFunctions_ := panelEmmisivittyFunctions_ self;
     panelDiffuseReflectionCoefficientFunctions_ :=
       panelDiffuseReflectionCoefficientFunctions_ self;
     panelSurfaceNormalFunctions_ := panelSurfaceNormalFunctions_ self;
     panelAreaFunctions_ := panelAreaFunctions_ self;
     massFunction_ := massFunction_ self;
     currentPanelAccelerations_ := currentPanelAccelerations_ self;
     numberOfPanels_ := numberOfPanels_ self;
     currentRadiationPressure_ := currentRadiationPressure_ self;
     currentNormalizedVectorToSource_ := currentNormalizedVectorToSource_ self;
     currentDistanceToSource_ := currentDistanceToSource_ self;
     currentMass_ := currentMass_ self;
     currentAcceleration_ := v;
     currentTime_ := currentTime_ self |}.

Definition set_currentTime_ (v : float) (self : Self) : Self :=
  {| sourcePositionFunction_ := sourcePositionFunction_ self;
     acceleratedBodyPositionFunction_ := acceleratedBodyPositionFunction_ self;
     radiationPressureFunction_ := radiationPressureFunction_ self;
     panelEmmisivittyFunctions_ := panelEmmisivittyFunctions_ self;
     panelDiffuseReflectionCoefficientFunctions_ :=
       panelDiffuseReflectionCoefficientFunctions_ self;
     panelSurfaceNormalFunctions_ := panelSurfaceNormalFunctions_ self;
     panelAreaFunctions_ := panelAreaFunctions_ self;
     massFunction_ := massFunction_ self;
     currentPanelAccelerations_ := currentPanelAccelerations_ self;
     numberOfPanels_ := numberOfPanels_ self;
     currentRadiationPressure_ := currentRadiationPressure_ self;
     currentNormalizedVectorToSource_ := currentNormalizedVectorToSource_ self;
     currentDistanceToSource_ := currentDistanceToSource_ self;
     currentMass_ := currentMass_ self;
     currentAcceleration_ := currentAcceleration_ self;
     currentTime_ := v |}.

(** Modelled from the spec: the constructor of the base class
    [basic_astrodynamics::AccelerationModel] (accelerationModel.h is not
    among the sources), "caches initialized to the always-recompute
    sentinel": the value it gives [currentTime_]. *)
Definition AccelerationModel_initialTime : float := TUDAT_NAN.

(** The constructor, panelledRadiationPressure.h l.71-92.  It stores the
    providers, resizes [currentPanelAccelerations_] and sets
    [numberOfPanels_]; [currentTime_] is set by the base class; the
    members it does not mention keep whatever the raw storage
    [uninitialised] holds (the resized vector included: its elements are
    default-constructed [Eigen::Vector3d]'s). *)
Definition construct
    (sourcePositionFunction acceleratedBodyPositionFunction : World -> Vector3d)
    (panelEmmisivittyFunctions panelDiffuseReflectionCoefficientFunctions :
       list (World -> R))
    (panelSurfaceNormalFunctions : list (World -> Vector3d))
    (panelAreaFunctions : list (World -> R))
    (radiationPressureFunction massFunction : World -> R)
    (uninitialised : Self) : Self :=
  {| sourcePositionFunction_ := sourcePositionFunction;
     acceleratedBodyPositionFunction_ := acceleratedBodyPositionFunction;
     radiationPressureFunction_ := radiationPressureFunction;
     panelEmmisivittyFunctions_ := panelEmmisivittyFunctions;
     panelDiffuseReflectionCoefficientFunctions_ :=
       panelDiffuseReflectionCoefficientFunctions;
     panelSurfaceNormalFunctions_ := panelSurfaceNormalFunctions;
     panelAreaFunctions_ := panelAreaFunctions;
     massFunction_ := massFunction;
     currentPanelAccelerations_ :=
       resize (length panelEmmisivittyFunctions) (currentAcceleration_ uninitialised)
              (currentPanelAccelerations_ uninitialised);
     numberOfPanels_ := length panelEmmisivittyFunctions;
     currentRadiationPressure_ := currentRadiationPressure_ uninitialised;
     currentNormalizedVectorToSource_ := currentNormalizedVectorToSource_ uninitialised;
     currentDistanceToSource_ := currentDistanceToSource_ uninitialised;
     currentMass_ := currentMass_ uninitialised;
     currentAcceleration_ := currentAcceleration_ uninitialised;
     currentTime_ := AccelerationModel_initialTime |}.

(** [getAcceleration], l.115-118 *)
Definition getAcceleration (self : Self) : Vector3d := currentAcceleration_ self.

(** [getCurrentPanelAcceleration], l.194-197; undefined out of range. *)
Definition getCurrentPanelAcceleration (self : Self) (panelIndex : nat) : option Vector3d :=
  currentPanelAccelerations_ self !! panelIndex.

(** [v[ i ] = a] on a [std::vector]; undefined out of range. *)
Definition assign_index {A : Type} (v : list A) (i : nat) (a : A) : Eff World (list A) :=
  fun _ calls => if decide (i < length v)%nat then Some (<[i:=a]> v, calls) else None.

(** The body of the loop over the panels, l.146-149.  C++ leaves the order
    in which the operands of one expression are evaluated unspecified; the
    providers are invoked here in the order they are written. *)
Definition updateMembers_panel (i : nat) (self : Self) : Eff World Self :=
  mass ← invoke call_massFunction_ (massFunction_ self);
  panelSurfaceNormalFunction ← at_index (panelSurfaceNormalFunctions_ self) i;
  panelSurfaceNormal ← invoke (call_panelSurfaceNormalFunctions_ i) panelSurfaceNormalFunction;
  panelAreaFunction ← at_index (panelAreaFunctions_ self) i;
  panelArea ← invoke (call_panelAreaFunctions_ i) panelAreaFunction;
  panelEmmisivittyFunction ← at_index (panelEmmisivittyFunctions_ self) i;
  panelEmmisivitty ← invoke (call_panelEmmisivittyFunctions_ i) panelEmmisivittyFunction;
  panelDiffuseReflectionCoefficientFunction ←
    at_index (panelDiffuseReflectionCoefficientFunctions_ self) i;
  panelDiffuseReflectionCoefficient ←
    invoke (call_panelDiffuseReflectionCoefficientFunctions_ i)
           panelDiffuseReflectionCoefficientFunction;
  panelAccelerations ←
    assign_index (currentPanelAccelerations_ self) i
      ((currentRadiationPressure_ self / mass)
         *: computeSinglePanelNormalizedRadiationPressureForce
              (currentNormalizedVectorToSource_ self) panelSurfaceNormal panelArea
              panelEmmisivitty panelDiffuseReflectionCoefficient);
  let self := set_currentPanelAccelerations_ panelAccelerations self in
  panelAcceleration ← at_index (currentPanelAccelerations_ self) i;
  mret (set_currentAcceleration_ (currentAcceleration_ self + panelAcceleration)%vec self).

(** The block of [updateMembers] that the time test guards, l.131-152. *)
Definition updateMembers_recompute (currentTime : float) (self : Self) : Eff World Self :=
  sourcePosition ← invoke call_sourcePositionFunction_ (sourcePositionFunction_ self);
  acceleratedBodyPosition ←
    invoke call_acceleratedBodyPositionFunction_ (acceleratedBodyPositionFunction_ self);
  let self :=
    set_currentNormalizedVectorToSource_ (sourcePosition - acceleratedBodyPosition)%vec self in
  let self :=
    set_currentDistanceToSource_ (Eigen.norm (currentNormalizedVectorToSource_ self)) self in
  let self :=
    set_currentNormalizedVectorToSource_
      (Eigen.normalize (currentNormalizedVectorToSource_ self)) self in
  radiationPressure ← invoke call_radiationPressureFunction_ (radiationPressureFunction_ self);
  let self := set_currentRadiationPressure_ radiationPressure self in
  mass ← invoke call_massFunction_ (massFunction_ self);
  let self := set_currentMass_ mass self in
  let self := set_currentAcceleration_ Eigen.Zero self in
  self ←
    (if Rgtb (currentRadiationPressure_ self) 0 then
       forRange 0 (numberOfPanels_ self) updateMembers_panel self
     else mret self);
  mret (set_currentTime_ currentTime self).

(** The object as the loop over the panels finds it, l.132-141 done. *)
Definition beforePanels (self : Self) (w : World) : Self :=
  let toSource :=
    (sourcePositionFunction_ self w - acceleratedBodyPositionFunction_ self w)%vec in
  set_currentAcceleration_ Eigen.Zero
    (set_currentMass_ (massFunction_ self w)
       (set_currentRadiationPressure_ (radiationPressureFunction_ self w)
          (set_currentNormalizedVectorToSource_ (Eigen.normalize toSource)
             (set_currentDistanceToSource_ (Eigen.norm toSource) self)))).

(** The providers [updateMembers] invokes before it looks at the panels. *)
Definition callsBeforePanels : list ProviderCall :=
  [call_sourcePositionFunction_; call_acceleratedBodyPositionFunction_;
   call_radiationPressureFunction_; call_massFunction_].

(** [updateMembers], l.127-154.  [==] on the two time stamps is the IEEE
    comparison. *)
Definition updateMembers (currentTime : float) (self : Self) : Eff World Self :=
  if negb (PrimFloat.eqb (currentTime_ self) currentTime) then
    updateMembers_recompute currentTime self
  else
    mret self.

(** [total + getCurrentPanelAcceleration( i )]; undefined when the index
    is out of range. *)
Definition addPanelAcceleration (self : Self) (total : option Vector3d) (i : nat) :
    option Vector3d :=
  match total, getCurrentPanelAcceleration self i with
  | Some t, Some a => Some (t + a)%vec
  | _, _ => None
  end.

(** The sum over all panel indices [0 .. numberOfPanels_ - 1] of
    [getCurrentPanelAcceleration], taken in the order of the indices. *)
Definition sumOfPanelAccelerations (self : Self) : option Vector3d :=
  foldl (addPanelAcceleration self) (Some Eigen.Zero) (seq 0 (numberOfPanels_ self)).

(** [self'] is [self] with, at most, [currentPanelAccelerations_] and
    [currentAcceleration_] assigned. *)
Definition panelFrame (self self' : Self) : Prop :=
  self' = set_currentAcceleration_ (currentAcceleration_ self')
            (set_currentPanelAccelerations_ (currentPanelAccelerations_ self') self).

(** What the constructor establishes about the sizes of the vectors when
    it is handed one provider of each kind per panel. *)
Definition sizesAgree (self : Self) : Prop :=
  length (currentPanelAccelerations_ self) = numberOfPanels_ self
  /\ length (panelEmmisivittyFunctions_ self) = numberOfPanels_ self
  /\ length (panelDiffuseReflectionCoefficientFunctions_ self) = numberOfPanels_ self
  /\ length (panelSurfaceNormalFunctions_ self) = numberOfPanels_ self
  /\ length (panelAreaFunctions_ self) = numberOfPanels_ self.

End PanelledRadiationPressure.

(* ================================================================== *)
(** ** panelledRadiationPressure.h: the accessors                      *)
(* ================================================================== *)

Section Accessors.

Context {World : Type}.

Local Abbreviation Self := (@PanelledRadiationPressureAcceleration World).

(** [getMassFunction], l.161-164 *)
Definition getMassFunction (self : Self) : World -> R := massFunction_ self.

(** [getCurrentVectorToSource], l.171-174 *)
Definition getCurrentVectorToSource (self : Self) : Vector3d :=
  currentNormalizedVectorToSource_ self.

(** [getCurrentDistanceToSource], l.182-185 *)
Definition getCurrentDistanceToSource (self : Self) : R := currentDistanceToSource_ self.

(** [getCurrentRadiationPressure], l.217-220 *)
Definition getCurrentRadiationPressure (self : Self) : R := currentRadiationPressure_ self.

(** [getCurrentMass], l.227-230 *)
Definition getCurrentMass (self : Self) : R := currentMass_ self.

(** [getCurrentPanelSurfaceNormalInPropagationFrame], l.206-209: it
    indexes the vector of normal providers and invokes the provider. *)
Definition getCurrentPanelSurfaceNormalInPropagationFrame (self : Self) (panelIndex : nat) :
    Eff World Vector3d :=
  panelSurfaceNormalFunction ← at_index (panelSurfaceNormalFunctions_ self) panelIndex;
  invoke (call_panelSurfaceNormalFunctions_ panelIndex) panelSurfaceNormalFunction.

End Accessors.

Section Recomputation.

Local Open Scope R_scope.

Context {World : Type}.

Variable computeSinglePanelNormalizedRadiationPressureForce :
  Vector3d -> Vector3d -> R -> R -> R -> Vector3d.

(** [self'] and [calls'] are what a recomputation of every cached
    quantity of [self] at time [t] in the world [w] leaves, whatever the
    order the providers were invoked in: the two position providers, the
    pressure provider and the mass provider have been invoked; the time,
    the unit vector and the distance to the source, the pressure and the
    mass are the current ones; the total acceleration is the zero vector
    when the pressure is not positive, and otherwise every panel
    acceleration is the current one of that panel and the total is their
    sum. *)
Definition recomputed (t : float) (self : @PanelledRadiationPressureAcceleration World)
    (w : World) (calls : list ProviderCall)
    (self' : @PanelledRadiationPressureAcceleration World)
    (calls' : list ProviderCall) : Prop :=
  let toSource :=
    (sourcePositionFunction_ self w - acceleratedBodyPositionFunction_ self w)%vec in
  (exists invoked,
     calls' = calls ++ invoked
     /\ call_sourcePositionFunction_ ∈ invoked
     /\ call_acceleratedBodyPositionFunction_ ∈ invoked
     /\ call_radiationPressureFunction_ ∈ invoked
     /\ call_massFunction_ ∈ invoked)
  /\ currentTime_ self' = t
  /\ getCurrentVectorToSource self' = Eigen.normalize toSource
  /\ getCurrentDistanceToSource self' = Eigen.norm toSource
  /\ getCurrentRadiationPressure self' = radiationPressureFunction_ self w
  /\ getCurrentMass self' = massFunction_ self w
  /\ (radiationPressureFunction_ self w <= 0 -> getAcceleration self' = Eigen.Zero)
  /\ (0 < radiationPressureFunction_ self w ->
      sumOfPanelAccelerations self' = Some (getAcceleration self')
      /\ forall (i : nat) normalF areaF emmisivittyF diffuseF,
           panelSurfaceNormalFunctions_ self !! i = Some normalF ->
           panelAreaFunctions_ self !! i = Some areaF ->
           panelEmmisivittyFunctions_ self !! i = Some emmisivittyF ->
           panelDiffuseReflectionCoefficientFunctions_ self !! i = Some diffuseF ->
           getCurrentPanelAcceleration self' i
           = Some ((radiationPressureFunction_ self w / massFunction_ self w)
                     *: computeSinglePanelNormalizedRadiationPressureForce
                          (Eigen.normalize toSource) (normalF w) (areaF w)
                          (emmisivittyF w) (diffuseF w))).

End Recomputation.

(** The provider invocations of one iteration of the loop over the
    panels, l.146-148, in the order they are written. *)
Definition callsOfPanel (i : nat) : list ProviderCall :=
  [call_massFunction_; call_panelSurfaceNormalFunctions_ i; call_panelAreaFunctions_ i;
   call_panelEmmisivittyFunctions_ i; call_panelDiffuseReflectionCoefficientFunctions_ i].

(** Calls that go to the mass provider. *)
Definition isMassCall (c : ProviderCall) : bool :=
  match c with call_massFunction_ => true | _ => false end.

(* ================================================================== *)
(** ** C++ exceptions                                                  *)
(* ================================================================== *)

(** The exceptions the modelled functions throw; the text of the message
    is left out. *)
Inductive Exception : Type :=
| std_runtime_error
| std_out_of_range.

(** A call that returns a value or throws. *)
Inductive Outcome (A : Type) : Type :=
| Returns (a : A)
| Throws (e : Exception).

Arguments Returns {A} a.
Arguments Throws {A} e.

(* ================================================================== *)
(** ** aerodynamicCoefficientInterface.h                               *)
(* ================================================================== *)

(** [enum AerodynamicCoefficientFrames], l.35-42 *)
Inductive AerodynamicCoefficientFrames : Type :=
| body_fixed_frame_coefficients
| negative_body_fixed_frame_coefficients
| negative_aerodynamic_frame_coefficients
| positive_aerodynamic_frame_coefficients
| undefined_frame_coefficients.

Section CoefficientFrames.

Local Open Scope R_scope.

(** [reference_frames::AerodynamicsReferenceFrames] and the two of its
    enumerators this header names; the enumeration is declared in
    referenceFrameTransformations.h, which is not among the sources. *)
Variable AerodynamicsReferenceFrames : Type.
Variables body_frame aerodynamic_frame : AerodynamicsReferenceFrames.

(** [convertCoefficientFrameToGeneralAerodynamicFrame], l.44-66 *)
Definition convertCoefficientFrameToGeneralAerodynamicFrame
    (coefficientFrame : AerodynamicCoefficientFrames) :
    Outcome (AerodynamicsReferenceFrames * R) :=
  match coefficientFrame with
  | body_fixed_frame_coefficients => Returns (body_frame, 1)
  | negative_body_fixed_frame_coefficients => Returns (body_frame, -1)
  | negative_aerodynamic_frame_coefficients => Returns (aerodynamic_frame, -1)
  | positive_aerodynamic_frame_coefficients => Returns (aerodynamic_frame, 1)
  | undefined_frame_coefficients => Throws std_runtime_error
  end.

(** [getCompleteFrameForCoefficients], l.68-91 *)
Definition getCompleteFrameForCoefficients
    (coefficientsFrame : AerodynamicCoefficientFrames) :
    Outcome AerodynamicsReferenceFrames :=
  match coefficientsFrame with
  | body_fixed_frame_coefficients => Returns body_frame
  | negative_body_fixed_frame_coefficients => Returns body_frame
  | negative_aerodynamic_frame_coefficients => Returns aerodynamic_frame
  | positive_aerodynamic_frame_coefficients => Returns aerodynamic_frame
  | undefined_frame_coefficients => Throws std_runtime_error
  end.

End CoefficientFrames.

(** [areCoefficientsInNegativeDirection], l.93-116 *)
Definition areCoefficientsInNegativeDirection
    (coefficientsFrame : AerodynamicCoefficientFrames) : Outcome bool :=
  match coefficientsFrame with
  | body_fixed_frame_coefficients => Returns false
  | negative_body_fixed_frame_coefficients => Returns true
  | negative_aerodynamic_frame_coefficients => Returns true
  | positive_aerodynamic_frame_coefficients => Returns false
  | undefined_frame_coefficients => Throws std_runtime_error
  end.

(** [getAerodynamicCoefficientFrame], l.119-145 *)
Definition getAerodynamicCoefficientFrame
    (areCoefficientsInAerodynamicFrame areCoefficientsInNegativeAxisDirection : bool) :
    Outcome AerodynamicCoefficientFrames :=
  if areCoefficientsInAerodynamicFrame && areCoefficientsInNegativeAxisDirection then
    Returns negative_aerodynamic_frame_coefficients
  else if areCoefficientsInAerodynamicFrame && negb areCoefficientsInNegativeAxisDirection then
    Returns positive_aerodynamic_frame_coefficients
  else if negb areCoefficientsInAerodynamicFrame
          && negb areCoefficientsInNegativeAxisDirection then
    Returns body_fixed_frame_coefficients
  else if negb areCoefficientsInAerodynamicFrame && areCoefficientsInNegativeAxisDirection then
    Returns negative_body_fixed_frame_coefficients
  else
    Throws std_runtime_error.

Section CoefficientInterface.

Local Open Scope R_scope.

(** [AerodynamicCoefficientsIndependentVariables],
    [ControlSurfaceIncrementAerodynamicInterface] (behind its shared
    pointer) and [AerodynamicMomentContributionInterface] (behind its
    shared pointer): the first two are declared in headers that are not
    among the sources, and none of the three is looked into here. *)
Variables IndependentVariable ControlSurface MomentContribution : Type.

(** What a control surface interface reports, as force and as moment
    coefficients, once [updateCurrentCoefficients] has been called on it
    with the given independent variables; the class is declared in
    controlSurfaceAerodynamicCoefficientInterface.h, which is not among
    the sources. *)
Variable controlSurfaceCoefficients : ControlSurface -> list R -> Vector3d * Vector3d.

(** The data members of [AerodynamicCoefficientInterface], l.603-665. *)
Record AerodynamicCoefficientInterface : Type := {
  currentForceCoefficients_ : Vector3d;
  currentControlSurfaceFreeForceCoefficients_ : Vector3d;
  currentControlSurfaceForceCoefficient_ : gmap string Vector3d;
  currentMomentCoefficients_ : Vector3d;
  currentControlSurfaceFreeMomentCoefficients_ : Vector3d;
  currentControlSurfaceMomentCoefficient_ : gmap string Vector3d;
  referenceLength_ : R;
  referenceArea_ : R;
  referenceLengths_ : Vector3d;
  momentReferencePoint_ : Vector3d;
  independentVariableNames_ : list IndependentVariable;
  numberOfIndependentVariables_ : nat;
  forceCoefficientsFrame_ : AerodynamicCoefficientFrames;
  momentCoefficientsFrame_ : AerodynamicCoefficientFrames;
  momentContributionInterface_ : option MomentContribution;
  controlSurfaceIncrementInterfaces_ : gmap string ControlSurface;
  controlSurfaceNames_ : list string
}.

(** Assignments to single members. *)
Definition set_currentForceCoefficients_ (v : Vector3d)
    (self : AerodynamicCoefficientInterface) : AerodynamicCoefficientInterface :=
  {| currentForceCoefficients_ := v;
     currentControlSurfaceFreeForceCoefficients_ := currentControlSurfaceFreeForceCoefficients_ self;
     currentControlSurfaceForceCoefficient_ := currentControlSurfaceForceCoefficient_ self;
     currentMomentCoefficients_ := currentMomentCoefficients_ self;
     currentControlSurfaceFreeMomentCoefficients_ := currentControlSurfaceFreeMomentCoefficients_ self;
     currentControlSurfaceMomentCoefficient_ := currentControlSurfaceMomentCoefficient_ self;
     referenceLength_ := referenceLength_ self;
     referenceArea_ := referenceArea_ self;
     referenceLengths_ := referenceLengths_ self;
     momentReferencePoint_ := momentReferencePoint_ self;
     independentVariableNames_ := independentVariableNames_ self;
     numberOfIndependentVariables_ := numberOfIndependentVariables_ self;
     forceCoefficientsFrame_ := forceCoefficientsFrame_ self;
     momentCoefficientsFrame_ := momentCoefficientsFrame_ self;
     momentContributionInterface_ := momentContributionInterface_ self;
     controlSurfaceIncrementInterfaces_ := controlSurfaceIncrementInterfaces_ self;
     controlSurfaceNames_ := controlSurfaceNames_ self |}.

Definition set_currentControlSurfaceForceCoefficient_ (v : gmap string Vector3d)
    (self : AerodynamicCoefficientInterface) : AerodynamicCoefficientInterface :=
  {| currentForceCoefficients_ := currentForceCoefficients_ self;
     currentControlSurfaceFreeForceCoefficients_ := currentControlSurfaceFreeForceCoefficients_ self;
     currentControlSurfaceForceCoefficient_ := v;
     currentMomentCoefficients_ := currentMomentCoefficients_ self;
     currentControlSurfaceFreeMomentCoefficients_ := currentControlSurfaceFreeMomentCoefficients_ self;
     currentControlSurfaceMomentCoefficient_ := currentControlSurfaceMomentCoefficient_ self;
     referenceLength_ := referenceLength_ self;
     referenceArea_ := referenceArea_ self;
     referenceLengths_ := referenceLengths_ self;
     momentReferencePoint_ := momentReferencePoint_ self;
     independentVariableNames_ := independentVariableNames_ self;
     numberOfIndependentVariables_ := numberOfIndependentVariables_ self;
     forceCoefficientsFrame_ := forceCoefficientsFrame_ self;
     momentCoefficientsFrame_ := momentCoefficientsFrame_ self;
     momentContributionInterface_ := momentContributionInterface_ self;
     controlSurfaceIncrementInterfaces_ := controlSurfaceIncrementInterfaces_ self;
     controlSurfaceNames_ := controlSurfaceNames_ self |}.

Definition set_currentMomentCoefficients_ (v : Vector3d)
    (self : AerodynamicCoefficientInterface) : AerodynamicCoefficientInterface :=
  {| currentForceCoefficients_ := currentForceCoefficients_ self;
     currentControlSurfaceFreeForceCoefficients_ := currentControlSurfaceFreeForceCoefficients_ self;
     currentControlSurfaceForceCoefficient_ := currentControlSurfaceForceCoefficient_ self;
     currentMomentCoefficients_ := v;
     currentControlSurfaceFreeMomentCoefficients_ := currentControlSurfaceFreeMomentCoefficients_ self;
     currentControlSurfaceMomentCoefficient_ := currentControlSurfaceMomentCoefficient_ self;
     referenceLength_ := referenceLength_ self;
     referenceArea_ := referenceArea_ self;
     referenceLengths_ := referenceLengths_ self;
     momentReferencePoint_ := momentReferencePoint_ self;
     independentVariableNames_ := independentVariableNames_ self;
     numberOfIndependentVariables_ := numberOfIndependentVariables_ self;
     forceCoefficientsFrame_ := forceCoefficientsFrame_ self;
     momentCoefficientsFrame_ := momentCoefficientsFrame_ self;
     momentContributionInterface_ := momentContributionInterface_ self;
     controlSurfaceIncrementInterfaces_ := controlSurfaceIncrementInterfaces_ self;
     controlSurfaceNames_ := controlSurfaceNames_ self |}.

Definition set_currentControlSurfaceMomentCoefficient_ (v : gmap string Vector3d)
    (self : AerodynamicCoefficientInterface) : AerodynamicCoefficientInterface :=
  {| currentForceCoefficients_ := currentForceCoefficients_ self;
     currentControlSurfaceFreeForceCoefficients_ := currentControlSurfaceFreeForceCoefficients_ self;
     currentControlSurfaceForceCoefficient_ := currentControlSurfaceForceCoefficient_ self;
     currentMomentCoefficients_ := currentMomentCoefficients_ self;
     currentControlSurfaceFreeMomentCoefficients_ := currentControlSurfaceFreeMomentCoefficients_ self;
     currentControlSurfaceMomentCoefficient_ := v;
     referenceLength_ := referenceLength_ self;
     referenceArea_ := referenceArea_ self;
     referenceLengths_ := referenceLengths_ self;
     momentReferencePoint_ := momentReferencePoint_ self;
     independentVariableNames_ := independentVariableNames_ self;
     numberOfIndependentVariables_ := numberOfIndependentVariables_ self;
     forceCoefficientsFrame_ := forceCoefficientsFrame_ self;
     momentCoefficientsFrame_ := momentCoefficientsFrame_ self;
     momentContributionInterface_ := momentContributionInterface_ self;
     controlSurfaceIncrementInterfaces_ := controlSurfaceIncrementInterfaces_ self;
     controlSurfaceNames_ := controlSurfaceNames_ self |}.

Definition set_controlSurfaceIncrementInterfaces_ (v : gmap string ControlSurface)
    (self : AerodynamicCoefficientInterface) : AerodynamicCoefficientInterface :=
  {| currentForceCoefficients_ := currentForceCoefficients_ self;
     currentControlSurfaceFreeForceCoefficients_ := currentControlSurfaceFreeForceCoefficients_ self;
     currentControlSurfaceForceCoefficient_ := currentControlSurfaceForceCoefficient_ self;
     currentMomentCoefficients_ := currentMomentCoefficients_ self;
     currentControlSurfaceFreeMomentCoefficients_ := currentControlSurfaceFreeMomentCoefficients_ self;
     currentControlSurfaceMomentCoefficient_ := currentControlSurfaceMomentCoefficient_ self;
     referenceLength_ := referenceLength_ self;
     referenceArea_ := referenceArea_ self;
     referenceLengths_ := referenceLengths_ self;
     momentReferencePoint_ := momentReferencePoint_ self;
     independentVariableNames_ := independentVariableNames_ self;
     numberOfIndependentVariables_ := numberOfIndependentVariables_ self;
     forceCoefficientsFrame_ := forceCoefficientsFrame_ self;
     momentCoefficientsFrame_ := momentCoefficientsFrame_ self;
     momentContributionInterface_ := momentContributionInterface_ self;
     controlSurfaceIncrementInterfaces_ := v;
     controlSurfaceNames_ := controlSurfaceNames_ self |}.

Definition set_controlSurfaceNames_ (v : list string)
    (self : AerodynamicCoefficientInterface) : AerodynamicCoefficientInterface :=
  {| currentForceCoefficients_ := currentForceCoefficients_ self;
     currentControlSurfaceFreeForceCoefficients_ := currentControlSurfaceFreeForceCoefficients_ self;
     currentControlSurfaceForceCoefficient_ := currentControlSurfaceForceCoefficient_ self;
     currentMomentCoefficients_ := currentMomentCoefficients_ self;
     currentControlSurfaceFreeMomentCoefficients_ := currentControlSurfaceFreeMomentCoefficients_ self;
     currentControlSurfaceMomentCoefficient_ := currentControlSurfaceMomentCoefficient_ self;
     referenceLength_ := referenceLength_ self;
     referenceArea_ := referenceArea_ self;
     referenceLengths_ := referenceLengths_ self;
     momentReferencePoint_ := momentReferencePoint_ self;
     independentVariableNames_ := independentVariableNames_ self;
     numberOfIndependentVariables_ := numberOfIndependentVariables_ self;
     forceCoefficientsFrame_ := forceCoefficientsFrame_ self;
     momentCoefficientsFrame_ := momentCoefficientsFrame_ self;
     momentContributionInterface_ := momentContributionInterface_ self;
     controlSurfaceIncrementInterfaces_ := controlSurfaceIncrementInterfaces_ self;
     controlSurfaceNames_ := v |}.

(** The constructor, l.202-220.  The members it does not mention are
    default-constructed: the maps and the vector of names are empty, and
    the coefficient vectors hold whatever the raw storage
    [uninitialised] holds. *)
Definition AerodynamicCoefficientInterface_construct
    (referenceLength referenceArea : R) (momentReferencePoint : Vector3d)
    (independentVariableNames : list IndependentVariable)
    (forceCoefficientsFrame momentCoefficientsFrame : AerodynamicCoefficientFrames)
    (uninitialised : AerodynamicCoefficientInterface) : AerodynamicCoefficientInterface :=
  {| currentForceCoefficients_ := currentForceCoefficients_ uninitialised;
     currentControlSurfaceFreeForceCoefficients_ :=
       currentControlSurfaceFreeForceCoefficients_ uninitialised;
     currentControlSurfaceForceCoefficient_ := ∅;
     currentMomentCoefficients_ := currentMomentCoefficients_ uninitialised;
     currentControlSurfaceFreeMomentCoefficients_ :=
       currentControlSurfaceFreeMomentCoefficients_ uninitialised;
     currentControlSurfaceMomentCoefficient_ := ∅;
     referenceLength_ := referenceLength;
     referenceArea_ := referenceArea;
     referenceLengths_ := Vector3d_of referenceLength referenceLength referenceLength;
     momentReferencePoint_ := momentReferencePoint;
     independentVariableNames_ := independentVariableNames;
     numberOfIndependentVariables_ := length independentVariableNames;
     forceCoefficientsFrame_ := forceCoefficientsFrame;
     momentCoefficientsFrame_ := momentCoefficientsFrame;
     momentContributionInterface_ := None;
     controlSurfaceIncrementInterfaces_ := ∅;
     controlSurfaceNames_ := [] |}.

(** [v.at( index )] on a [std::vector]. *)
Definition vector_at {A : Type} (v : list A) (index : nat) : Outcome A :=
  match v !! index with
  | Some a => Returns a
  | None => Throws std_out_of_range
  end.

(** [m.at( key )] on a [std::map]. *)
Definition map_at {A : Type} (m : gmap string A) (key : string) : Outcome A :=
  match m !! key with
  | Some a => Returns a
  | None => Throws std_out_of_range
  end.

(** [m.count( key )] on a [std::map]. *)
Definition map_count {A : Type} (m : gmap string A) (key : string) : nat :=
  match m !! key with Some _ => 1 | None => 0 end.

(** [getCurrentControlSurfaceFreeForceCoefficients], l.300-310 *)
Definition getCurrentControlSurfaceFreeForceCoefficients
    (self : AerodynamicCoefficientInterface) : Vector3d :=
  if (0 <? size (controlSurfaceIncrementInterfaces_ self))%nat then
    currentControlSurfaceFreeForceCoefficients_ self
  else
    currentForceCoefficients_ self.

(** [getCurrentForceCoefficientIncrement], l.312-323 *)
Definition getCurrentForceCoefficientIncrement
    (self : AerodynamicCoefficientInterface) (controlSurfaceName : string) :
    Outcome Vector3d :=
  if (map_count (currentControlSurfaceForceCoefficient_ self) controlSurfaceName =? 0)%nat
  then Throws std_runtime_error
  else map_at (currentControlSurfaceForceCoefficient_ self) controlSurfaceName.

(** [getCurrentMomentCoefficientIncrement], l.325-336 *)
Definition getCurrentMomentCoefficientIncrement
    (self : AerodynamicCoefficientInterface) (controlSurfaceName : string) :
    Outcome Vector3d :=
  if (map_count (currentControlSurfaceMomentCoefficient_ self) controlSurfaceName =? 0)%nat
  then Throws std_runtime_error
  else map_at (currentControlSurfaceMomentCoefficient_ self) controlSurfaceName.

(** [getIndependentVariableName], l.394-408; the [unsigned int]s are
    natural numbers here. *)
Definition getIndependentVariableName
    (self : AerodynamicCoefficientInterface) (index : nat) : Outcome IndependentVariable :=
  if (numberOfIndependentVariables_ self <=? index)%nat then
    Throws std_runtime_error
  else
    vector_at (independentVariableNames_ self) index.

(** [getNumberOfIndependentVariables], l.417-420 *)
Definition getNumberOfIndependentVariables (self : AerodynamicCoefficientInterface) : nat :=
  numberOfIndependentVariables_ self.

(** [addControlSurface], l.463-469 *)
Definition addControlSurface (controlSurfaceName : string)
    (controlSurfaceIncrementInterface : ControlSurface)
    (self : AerodynamicCoefficientInterface) : AerodynamicCoefficientInterface :=
  let self :=
    set_controlSurfaceNames_ (controlSurfaceNames_ self ++ [controlSurfaceName]) self in
  set_controlSurfaceIncrementInterfaces_
    (<[controlSurfaceName := controlSurfaceIncrementInterface]>
       (controlSurfaceIncrementInterfaces_ self)) self.


(** [getControlSurfaceNames], l.482-485 *)
Definition getControlSurfaceNames (self : AerodynamicCoefficientInterface) : list string :=
  controlSurfaceNames_ self.


(** [updateCurrentControlSurfaceCoefficientsCoefficients], l.579-597.
    The three [controlSurfaceIncrementInterfaces_.at( ... )] of l.587,
    l.591 and l.595 read one unchanged map and are one lookup here. *)
Definition updateCurrentControlSurfaceCoefficientsCoefficients
    (currentControlSurface : string) (controlSurfaceIndependentVariables : list R)
    (self : AerodynamicCoefficientInterface) : Outcome AerodynamicCoefficientInterface :=
  if (map_count (controlSurfaceIncrementInterfaces_ self) currentControlSurface =? 0)%nat
  then Throws std_runtime_error
  else
    match map_at (controlSurfaceIncrementInterfaces_ self) currentControlSurface with
    | Throws e => Throws e
    | Returns controlSurface =>
        let '(forceCoefficients, momentCoefficients) :=
          controlSurfaceCoefficients controlSurface controlSurfaceIndependentVariables in
        let self :=
          set_currentControlSurfaceForceCoefficient_
            (<[currentControlSurface := forceCoefficients]>
               (currentControlSurfaceForceCoefficient_ self)) self in
        match map_at (currentControlSurfaceForceCoefficient_ self) currentControlSurface with
        | Throws e => Throws e
        | Returns increment =>
            let self :=
              set_currentForceCoefficients_ (currentForceCoefficients_ self + increment)%vec
                                            self in
            let self :=
              set_currentControlSurfaceMomentCoefficient_
                (<[currentControlSurface := momentCoefficients]>
                   (currentControlSurfaceMomentCoefficient_ self)) self in
            match map_at (currentControlSurfaceMomentCoefficient_ self)
                         currentControlSurface with
            | Throws e => Throws e
            | Returns increment =>
                Returns
                  (set_currentMomentCoefficients_
                     (currentMomentCoefficients_ self + increment)%vec self)
            end
        end
    end.

End CoefficientInterface.

(* ================================================================== *)
(** ** singleStateTypeDerivative.cpp                                   *)
(* ================================================================== *)

(** [IntegratedStateType]: the three enumerators singleStateTypeDerivative.cpp
    names, and one constructor for every other enumerator of the
    enumeration, whose declaration is not among the sources. *)
Inductive IntegratedStateType : Type :=
| translational_state
| rotational_state
| body_mass_state
| other_state_type (enumerator : nat).

(** [getSingleIntegrationSize], l.19-39 *)
Definition getSingleIntegrationSize (stateType : IntegratedStateType) : Outcome Z :=
  match stateType with
  | translational_state => Returns 6%Z
  | rotational_state => Returns 7%Z
  | body_mass_state => Returns 1%Z
  | other_state_type _ => Throws std_runtime_error
  end.

(** [getSingleIntegrationDifferentialEquationOrder], l.42-59 *)
Definition getSingleIntegrationDifferentialEquationOrder (stateType : IntegratedStateType) :
    Outcome Z :=
  match stateType with
  | translational_state => Returns 2%Z
  | body_mass_state => Returns 1%Z
  | rotational_state | other_state_type _ => Throws std_runtime_error
  end.

(* ================================================================== *)
(** ** exponentialAtmosphere.cpp                                       *)
(* ================================================================== *)

Section ExponentialAtmosphereModel.

Local Open Scope R_scope.

(** The data members of [ExponentialAtmosphere] that
    exponentialAtmosphere.cpp reads. *)
Record ExponentialAtmosphere : Type := {
  scaleHeight_ : R;
  constantTemperature_ : R;
  densityAtZeroAltitude_ : R;
  specificGasConstant_ : R
}.

(** [ExponentialAtmosphere::getDensity], l.81-87 *)
Definition getDensity (self : ExponentialAtmosphere)
    (altitude longitude latitude time : R) : R :=
  densityAtZeroAltitude_ self * exp (- altitude / scaleHeight_ self).

(** [ExponentialAtmosphere::getPressure], l.90-97.  The one-argument
    [getDensity( altitude )] it calls is declared in the header, which
    is not among the sources; it is the density at that altitude. *)
Definition getPressure (self : ExponentialAtmosphere)
    (altitude longitude latitude time : R) : R :=
  getDensity self altitude 0 0 0 * specificGasConstant_ self * constantTemperature_ self.

(** [ExponentialAtmosphere::getTemperature], l.100-106 *)
Definition getTemperature (self : ExponentialAtmosphere)
    (altitude longitude latitude time : R) : R :=
  constantTemperature_ self.

End ExponentialAtmosphereModel.

(* ================================================================== *)
(** ** A one-panel body for the examples                               *)
(* ================================================================== *)

Section ExampleBody.

Local Open Scope R_scope.

Definition exampleForce (toSource normal : Vector3d) (area emmisivitty diffuse : R) :
    Vector3d :=
  (area * (emmisivitty + diffuse)) *: (toSource + normal)%vec.

Definition exampleStorage : @PanelledRadiationPressureAcceleration unit :=
  {| sourcePositionFunction_ := fun _ => Eigen.Zero;
     acceleratedBodyPositionFunction_ := fun _ => Eigen.Zero;
     radiationPressureFunction_ := fun _ => 0;
     panelEmmisivittyFunctions_ := [];
     panelDiffuseReflectionCoefficientFunctions_ := [];
     panelSurfaceNormalFunctions_ := [];
     panelAreaFunctions_ := [];
     massFunction_ := fun _ => 0;
     currentPanelAccelerations_ := [Vector3d_of 7 7 7];
     numberOfPanels_ := 0;
     currentRadiationPressure_ := 7;
     currentNormalizedVectorToSource_ := Vector3d_of 7 7 7;
     currentDistanceToSource_ := 7;
     currentMass_ := 7;
     currentAcceleration_ := Vector3d_of 7 7 7;
     currentTime_ := 7%float |}.

Definition exampleModel (pressure : R) : @PanelledRadiationPressureAcceleration unit :=
  construct (fun _ => Vector3d_of 2 0 0) (fun _ => Eigen.Zero)
            [fun _ => 1 / 2] [fun _ => 1 / 10] [fun _ => Vector3d_of 1 0 0] [fun _ => 2]
            (fun _ => pressure) (fun _ => 100) exampleStorage.

End ExampleBody.

(* ================================================================== *)
(** ** Further bodies for the examples                                 *)
(* ================================================================== *)

Section FurtherExampleBodies.

Local Open Scope R_scope.

Definition exampleLaw : SpecularDiffuseMixReflectionLaw :=
  {| absorptivity_ := 2 / 10; specularReflectivity_ := 4 / 10;
     diffuseReflectivity := 4 / 10;
     withInstantaneousLambertianReradiation_ := true |}.

Definition exampleInterfaceStorage : AerodynamicCoefficientInterface nat nat unit :=
  {| currentForceCoefficients_ := Vector3d_of 1 2 3;
     currentControlSurfaceFreeForceCoefficients_ := Vector3d_of 7 7 7;
     currentControlSurfaceForceCoefficient_ := ∅;
     currentMomentCoefficients_ := Vector3d_of 4 5 6;
     currentControlSurfaceFreeMomentCoefficients_ := Vector3d_of 7 7 7;
     currentControlSurfaceMomentCoefficient_ := ∅;
     referenceLength_ := 7;
     referenceArea_ := 7;
     referenceLengths_ := Vector3d_of 7 7 7;
     momentReferencePoint_ := Vector3d_of 7 7 7;
     independentVariableNames_ := [];
     numberOfIndependentVariables_ := 0;
     forceCoefficientsFrame_ := undefined_frame_coefficients;
     momentCoefficientsFrame_ := undefined_frame_coefficients;
     momentContributionInterface_ := None;
     controlSurfaceIncrementInterfaces_ := ∅;
     controlSurfaceNames_ := [] |}.

Definition exampleInterface : AerodynamicCoefficientInterface nat nat unit :=
  AerodynamicCoefficientInterface_construct nat nat unit 2 10 Eigen.Zero [0; 1]%nat
    negative_aerodynamic_frame_coefficients body_fixed_frame_coefficients
    exampleInterfaceStorage.

Definition exampleSurfaceCoefficients (controlSurface : nat) (variables : list R) :
    Vector3d * Vector3d :=
  (Vector3d_of (INR controlSurface) 0 0, Vector3d_of 0 (INR controlSurface) 0).

Definition exampleAtmosphere : ExponentialAtmosphere :=
  {| scaleHeight_ := 7200; constantTemperature_ := 246;
     densityAtZeroAltitude_ := 1225 / 1000; specificGasConstant_ := 287 |}.

End FurtherExampleBodies.

(* ================================================================== *)
(** * Properties                                                       *)
(* ================================================================== *)

(** ** Reals as booleans, vectors by components *)

Section Basics.

Local Open Scope R_scope.

Lemma Rleb_true (a b : R) : Rleb a b = true <-> a <= b.
Proof. unfold Rleb. destruct (Rle_dec a b); split; intros; (done || lra). Qed.

Lemma Rleb_false (a b : R) : Rleb a b = false <-> b < a.
Proof. unfold Rleb. destruct (Rle_dec a b); split; intros; (done || lra). Qed.

Lemma Rltb_true (a b : R) : Rltb a b = true <-> a < b.
Proof. unfold Rltb. destruct (Rlt_dec a b); split; intros; (done || lra). Qed.

Lemma Rltb_false (a b : R) : Rltb a b = false <-> b <= a.
Proof. unfold Rltb. destruct (Rlt_dec a b); split; intros; (done || lra). Qed.

Lemma Vector3d_eq (a b : Vector3d) :
  coeff0 a = coeff0 b -> coeff1 a = coeff1 b -> coeff2 a = coeff2 b -> a = b.
Proof. destruct a, b; simpl; intros; subst; reflexivity. Qed.

Lemma isApprox_true (a b : Vector3d) :
  Eigen.isApprox a b = true <-> Eigen.isApprox_prop a b.
Proof.
  unfold Eigen.isApprox, Eigen.isApprox_prop.
  destruct (Rle_dec _ _); split; intros; (done || lra).
Qed.

Lemma isApprox_false (a b : Vector3d) :
  Eigen.isApprox a b = false <-> ~ Eigen.isApprox_prop a b.
Proof.
  unfold Eigen.isApprox, Eigen.isApprox_prop.
  destruct (Rle_dec _ _); split; intros; (done || lra).
Qed.

Lemma add_Zero_r (a : Vector3d) : (a + Eigen.Zero)%vec = a.
Proof. apply Vector3d_eq; simpl; lra. Qed.

Lemma scale_Zero (s : R) : s *: Eigen.Zero = Eigen.Zero.
Proof. apply Vector3d_eq; simpl; lra. Qed.

Lemma norm_1_squaredNorm (a : Vector3d) : Eigen.norm a = 1 -> Eigen.squaredNorm a = 1.
Proof.
  unfold Eigen.norm. intros H.
  assert (Hpos : 0 <= Eigen.squaredNorm a).
  { unfold Eigen.squaredNorm, Eigen.dot. nra. }
  rewrite <- (sqrt_sqrt _ Hpos), H. lra.
Qed.

End Basics.

Ltac vec_unfold :=
  unfold Eigen.squaredNorm, Eigen.dot, Eigen.add, Eigen.sub, Eigen.opp,
    Eigen.scale, Eigen.Zero in *; simpl in *.
Ltac vec_eq := apply Vector3d_eq; vec_unfold; try (lra || ring || (field; lra)).
Ltac vec_arith := vec_unfold; lra.

(** ** The reflection law *)

Section ReflectionLawProperties.

Local Open Scope R_scope.

Implicit Types (law : SpecularDiffuseMixReflectionLaw) (n i o v : Vector3d).

Lemma computeMirrorlikeReflection_back v n :
  0 <= v · n -> computeMirrorlikeReflection v n = Eigen.Zero.
Proof.
  intros H%Rleb_true. unfold computeMirrorlikeReflection, Rgeb. by rewrite H.
Qed.

Lemma computeMirrorlikeReflection_front v n :
  v · n < 0 -> computeMirrorlikeReflection v n = (v - (2 * (v · n)) *: n)%vec.
Proof.
  intros H%Rleb_false. unfold computeMirrorlikeReflection, Rgeb. by rewrite H.
Qed.

Lemma evaluateReactionVector_back law n i :
  n · (- i)%vec <= 0 -> evaluateReactionVector law n i = Eigen.Zero.
Proof. intros H%Rleb_true. unfold evaluateReactionVector. by rewrite H. Qed.

Lemma evaluateReactionVector_front law n i :
  0 < n · (- i)%vec ->
  evaluateReactionVector law n i
  = ((absorptivity_ law + diffuseReflectivity law) *: i
     + (- (2 / 3 * diffuseReflectivity law
           + 2 * specularReflectivity_ law * (n · (- i)%vec))) *: n
     + (if withInstantaneousLambertianReradiation_ law
        then (- (2 / 3 * absorptivity_ law)) *: n else Eigen.Zero))%vec.
Proof. intros H%Rleb_false. unfold evaluateReactionVector. by rewrite H. Qed.

(** C3: [computeMirrorlikeReflection v n] is the zero vector when
    [v · n >= 0] and [v - 2 (v · n) n] otherwise.  Being a function of its
    two arguments only, it has no effect besides its result. *)
Theorem computeMirrorlikeReflection_cases v n :
  (v · n >= 0 -> computeMirrorlikeReflection v n = Eigen.Zero)
  /\ (v · n < 0 ->
      computeMirrorlikeReflection v n = (v - (2 * (v · n)) *: n)%vec).
Proof.
  split; intros H.
  - apply computeMirrorlikeReflection_back. by apply Rge_le.
  - by apply computeMirrorlikeReflection_front.
Qed.

Lemma computeMirrorlikeReflection_example :
  computeMirrorlikeReflection (Vector3d_of 1 0 (-1)) (Vector3d_of 0 0 1)
    = Vector3d_of 1 0 1
  /\ computeMirrorlikeReflection (Vector3d_of 1 0 1) (Vector3d_of 0 0 1)
    = Eigen.Zero.
Proof.
  split.
  - destruct (computeMirrorlikeReflection_cases (Vector3d_of 1 0 (-1)) (Vector3d_of 0 0 1))
      as [_ ->]; [vec_eq | vec_arith].
  - destruct (computeMirrorlikeReflection_cases (Vector3d_of 1 0 1) (Vector3d_of 0 0 1))
      as [-> _]; [done | vec_arith].
Defined.

(** C1: [evaluateReactionVector] is the zero vector when
    [cIn = surfaceNormal · (-incomingDirection) <= 0]; otherwise it is
    [(absorptivity + diffuseReflectivity) incomingDirection
     - (2/3 diffuseReflectivity + 2 specularReflectivity cIn) surfaceNormal],
    to which [-(2/3 absorptivity) surfaceNormal] is added exactly when the
    law reradiates instantaneously. *)
Theorem evaluateReactionVector_cases law n i :
  let cIn := n · (- i)%vec in
  let incidenceAndReflection :=
    ((absorptivity_ law + diffuseReflectivity law) *: i
     - (2 / 3 * diffuseReflectivity law + 2 * specularReflectivity_ law * cIn) *: n)%vec in
  (cIn <= 0 -> evaluateReactionVector law n i = Eigen.Zero)
  /\ (0 < cIn -> withInstantaneousLambertianReradiation_ law = true ->
      evaluateReactionVector law n i
        = (incidenceAndReflection + (- (2 / 3 * absorptivity_ law)) *: n)%vec)
  /\ (0 < cIn -> withInstantaneousLambertianReradiation_ law = false ->
      evaluateReactionVector law n i = incidenceAndReflection).
Proof.
  intros cIn base. repeat split.
  - apply evaluateReactionVector_back.
  - intros H Hflag. rewrite evaluateReactionVector_front, Hflag by done.
    subst base cIn. vec_eq.
  - intros H Hflag. rewrite evaluateReactionVector_front, Hflag by done.
    subst base cIn. vec_eq.
Qed.

Lemma evaluateReactionVector_example :
  let law := {| absorptivity_ := 2 / 10; specularReflectivity_ := 4 / 10;
                diffuseReflectivity := 4 / 10;
                withInstantaneousLambertianReradiation_ := false |} in
  evaluateReactionVector law (Vector3d_of 0 0 1) (Vector3d_of 0 0 (-1))
    = Vector3d_of 0 0 (- (6 / 10 + (8 / 30 + 8 / 10)))
  /\ evaluateReactionVector law (Vector3d_of 0 0 (-1)) (Vector3d_of 0 0 (-1))
    = Eigen.Zero.
Proof.
  intros law. split.
  - destruct (evaluateReactionVector_cases law (Vector3d_of 0 0 1) (Vector3d_of 0 0 (-1)))
      as (_ & _ & ->); [vec_eq | vec_arith | done].
  - destruct (evaluateReactionVector_cases law (Vector3d_of 0 0 (-1)) (Vector3d_of 0 0 (-1)))
      as (-> & _); [done | vec_arith].
Defined.

Lemma Rdiv_nonneg (a b : R) : 0 <= a -> 0 < b -> 0 <= a / b.
Proof.
  intros Ha Hb. unfold Rdiv. apply Rmult_le_pos; [done|].
  left. by apply Rinv_0_lt_compat.
Qed.

(** C4, as the code has it: [evaluateReflectedFraction] is 0 when
    [cIn = surfaceNormal · (-incomingDirection) <= 0] or
    [cObs = surfaceNormal · observerDirection <= 0]; otherwise it is
    [diffuseReflectivity / pi], to which [specularReflectivity / cIn] is
    added exactly when [observerDirection.isApprox(mirror direction)]
    holds, Eigen's comparison up to a relative precision of 1e-12.  With
    non-negative reflectivities the result is never negative. *)
Theorem evaluateReflectedFraction_cases law n i o :
  0 <= diffuseReflectivity law ->
  0 <= specularReflectivity_ law ->
  let cIn := n · (- i)%vec in
  let cObs := n · o in
  let mirrorOfIncomingDirection := computeMirrorlikeReflection i n in
  (cIn <= 0 \/ cObs <= 0 -> evaluateReflectedFraction law n i o = 0)
  /\ (0 < cIn -> 0 < cObs -> Eigen.isApprox_prop o mirrorOfIncomingDirection ->
      evaluateReflectedFraction law n i o
        = diffuseReflectivity law / PI + specularReflectivity_ law / cIn)
  /\ (0 < cIn -> 0 < cObs -> ~ Eigen.isApprox_prop o mirrorOfIncomingDirection ->
      evaluateReflectedFraction law n i o = diffuseReflectivity law / PI)
  /\ 0 <= evaluateReflectedFraction law n i o.
Proof.
  intros Hd Hs cIn cObs mirror. unfold evaluateReflectedFraction.
  fold cIn cObs mirror.
  assert (Hdiffuse : 0 <= diffuseReflectivity law / PI)
    by (apply Rdiv_nonneg; [done | apply PI_RGT_0]).
  repeat split.
  - intros [H%Rleb_true | H%Rleb_true]; rewrite H; [done | by rewrite orb_true_r].
  - intros H1%Rleb_false H2%Rleb_false H3%isApprox_true. by rewrite H1, H2, H3.
  - intros H1%Rleb_false H2%Rleb_false H3%isApprox_false. by rewrite H1, H2, H3.
  - destruct (Rleb cIn 0) eqn:H1; [simpl; lra|].
    destruct (Rleb cObs 0) eqn:H2; [simpl; lra|]. simpl.
    apply Rleb_false in H1.
    pose proof (Rdiv_nonneg _ _ Hs H1).
    destruct (Eigen.isApprox o mirror); lra.
Qed.

Lemma evaluateReflectedFraction_example :
  let law := {| absorptivity_ := 0; specularReflectivity_ := 1 / 2;
                diffuseReflectivity := 1 / 2;
                withInstantaneousLambertianReradiation_ := false |} in
  evaluateReflectedFraction law (Vector3d_of 0 0 1) (Vector3d_of 0 0 (-1)) (Vector3d_of 0 0 1)
    = 1 / 2 / PI + 1 / 2 / 1
  /\ evaluateReflectedFraction law (Vector3d_of 0 0 1) (Vector3d_of 0 0 (-1)) (Vector3d_of 1 0 1)
    = 1 / 2 / PI.
Proof.
  intros law.
  assert (Hmirror : computeMirrorlikeReflection (Vector3d_of 0 0 (-1)) (Vector3d_of 0 0 1)
                    = Vector3d_of 0 0 1).
  { rewrite computeMirrorlikeReflection_front; [vec_eq | vec_arith]. }
  split.
  - destruct (evaluateReflectedFraction_cases law (Vector3d_of 0 0 1)
                (Vector3d_of 0 0 (-1)) (Vector3d_of 0 0 1))
      as (_ & H & _); [simpl; lra | simpl; lra |].
    rewrite H; [do 2 f_equal; vec_arith | vec_arith | vec_arith |].
    rewrite Hmirror. unfold Eigen.isApprox_prop, Eigen.dummy_precision.
    rewrite Rmin_left by lra. vec_arith.
  - destruct (evaluateReflectedFraction_cases law (Vector3d_of 0 0 1)
                (Vector3d_of 0 0 (-1)) (Vector3d_of 1 0 1))
      as (_ & _ & H & _); [simpl; lra | simpl; lra |].
    rewrite H; [done | vec_arith | vec_arith |].
    rewrite Hmirror. unfold Eigen.isApprox_prop, Eigen.dummy_precision.
    rewrite Rmin_right by vec_arith. vec_arith.
Defined.

(** C4, as stated, fails: an observer direction that differs from the
    mirror direction by one part in 1e13 still receives the specular
    term, because the code compares with [isApprox]. *)
Lemma evaluateReflectedFraction_inexact_match :
  let law := {| absorptivity_ := 0; specularReflectivity_ := 1;
                diffuseReflectivity := 0;
                withInstantaneousLambertianReradiation_ := false |} in
  let n := Vector3d_of 0 0 1 in
  let i := Vector3d_of 0 0 (-1) in
  let o := Vector3d_of 0 0 (1 + / 10 ^ 13) in
  0 < n · (- i)%vec
  /\ 0 < n · o
  /\ o <> computeMirrorlikeReflection i n
  /\ evaluateReflectedFraction law n i o = 1
  /\ diffuseReflectivity law / PI = 0
  /\ evaluateReflectedFraction law n i o <> diffuseReflectivity law / PI.
Proof.
  intros law n i o.
  assert (Hmirror : computeMirrorlikeReflection i n = Vector3d_of 0 0 1).
  { rewrite computeMirrorlikeReflection_front; subst i n; [vec_eq | vec_arith]. }
  assert (HcIn : n · (- i)%vec = 1) by (subst n i; vec_arith).
  assert (HcObs : 0 < n · o) by (subst n o; vec_arith).
  assert (Hdiffuse : diffuseReflectivity law / PI = 0) by (simpl; lra).
  assert (Hfraction : evaluateReflectedFraction law n i o = 1).
  { unfold evaluateReflectedFraction. rewrite HcIn, Hmirror.
    replace (Rleb 1 0) with false by (symmetry; apply Rleb_false; lra).
    replace (Rleb (n · o) 0) with false by (symmetry; by apply Rleb_false).
    replace (Eigen.isApprox o (Vector3d_of 0 0 1)) with true.
    - simpl. lra.
    - symmetry. apply isApprox_true. subst o.
      unfold Eigen.isApprox_prop, Eigen.dummy_precision.
      rewrite Rmin_right by vec_arith. vec_arith. }
  split; [lra|]. split; [done|]. split.
  { rewrite Hmirror. subst o. intros [= H]. lra. }
  split; [done|]. split; [done|].
  rewrite Hfraction, Hdiffuse. lra.
Qed.

End ReflectionLawProperties.

(** ** The target models *)

Section TargetModelProperties.

Local Open Scope R_scope.

Variable speedOfLight : R.

Implicit Types (panels : list Panel) (E : R) (d : Vector3d).

(** C7: the cannonball force is [(irradiance / speedOfLight) · referenceArea
    · radiationPressureCoefficient · sourceToTargetDirection], coefficient
    by coefficient, and a zero coefficient gives the zero vector. *)
Theorem Cannonball_force (model : CannonballRadiationPressureTargetModel) E d :
  let magnitude :=
    E / speedOfLight * referenceArea model * radiationPressureCoefficient model in
  Cannonball_evaluateRadiationPressureForce speedOfLight model E d
    = Vector3d_of (magnitude * coeff0 d) (magnitude * coeff1 d) (magnitude * coeff2 d)
  /\ (radiationPressureCoefficient model = 0 ->
      Cannonball_evaluateRadiationPressureForce speedOfLight model E d = Eigen.Zero).
Proof.
  intros magnitude. unfold Cannonball_evaluateRadiationPressureForce. split.
  - reflexivity.
  - intros ->. vec_eq.
Qed.

(** One step of the accumulation over the panels. *)
Lemma Paneled_force_snoc panels (p : Panel) E d :
  Paneled_evaluateRadiationPressureForce speedOfLight (panels ++ [p]) E d
  = (Paneled_evaluateRadiationPressureForce speedOfLight panels E d
     + (E / speedOfLight * area p)
         *: evaluateReactionVector (reflectionLaw p) (surfaceNormal p) d)%vec.
Proof. unfold Paneled_evaluateRadiationPressureForce. by rewrite foldl_snoc. Qed.

(** C6: when every panel's normal has a non-positive dot product with the
    negated incoming direction, each panel's reaction vector is the zero
    vector and so is the aggregate force, whatever the irradiance. *)
Theorem Paneled_force_pointing_away panels E d :
  Forall (fun p => surfaceNormal p · (- d)%vec <= 0) panels ->
  Forall (fun p => evaluateReactionVector (reflectionLaw p) (surfaceNormal p) d
                   = Eigen.Zero) panels
  /\ Paneled_evaluateRadiationPressureForce speedOfLight panels E d = Eigen.Zero.
Proof.
  intros Haway.
  assert (Hzero : Forall (fun p => evaluateReactionVector (reflectionLaw p)
                                     (surfaceNormal p) d = Eigen.Zero) panels).
  { eapply Forall_impl; [exact Haway|]. intros p Hp.
    by apply evaluateReactionVector_back. }
  split; [done|]. clear Haway.
  induction panels as [|p panels IH] using rev_ind; [done|].
  apply Forall_app in Hzero as [Hpanels Hp%Forall_inv].
  rewrite Paneled_force_snoc, Hp, scale_Zero, (IH Hpanels).
  apply add_Zero_r.
Qed.

(** C2: one panel of area [A] whose unit normal is opposite to the incoming
    direction, with specular reflectivity 0.6 and no diffuse reflection,
    feels the force of a cannonball of area [A] and coefficient 1.6, for
    every irradiance ... *)
Lemma Paneled_single_eq_Cannonball (A : R) E d (n : Vector3d) :
  n = (- d)%vec ->
  Eigen.norm n = 1 ->
  Paneled_evaluateRadiationPressureForce speedOfLight
    [ {| area := A; surfaceNormal := n;
         reflectionLaw := reflectionLawFromSpecularAndDiffuseReflectivity (6 / 10) 0 |} ]
    E d
  = Cannonball_evaluateRadiationPressureForce speedOfLight
      {| referenceArea := A; radiationPressureCoefficient := 16 / 10 |} E d.
Proof.
  intros -> Hunit%norm_1_squaredNorm.
  assert (HcIn : (- d)%vec · (- (d))%vec = 1) by done.
  unfold Paneled_evaluateRadiationPressureForce,
    Cannonball_evaluateRadiationPressureForce. simpl.
  rewrite evaluateReactionVector_front by (rewrite HcIn; lra).
  simpl. rewrite HcIn. vec_eq.
Qed.

(** C2: ... so the two forces agree within 1e-10 in every coefficient. *)
Theorem Paneled_single_close_to_Cannonball (A : R) E d (n : Vector3d) :
  n = (- d)%vec ->
  Eigen.norm n = 1 ->
  closeWithin (/ 10 ^ 10)
    (Cannonball_evaluateRadiationPressureForce speedOfLight
       {| referenceArea := A; radiationPressureCoefficient := 16 / 10 |} E d)
    (Paneled_evaluateRadiationPressureForce speedOfLight
       [ {| area := A; surfaceNormal := n;
            reflectionLaw := reflectionLawFromSpecularAndDiffuseReflectivity (6 / 10) 0 |} ]
       E d).
Proof.
  intros Hn Hunit. rewrite (Paneled_single_eq_Cannonball A E d n Hn Hunit).
  unfold closeWithin.
  rewrite !Rminus_diag, Rabs_R0. lra.
Qed.

End TargetModelProperties.

Lemma norm_unit_z : Eigen.norm (Vector3d_of 0 0 1) = 1%R.
Proof.
  unfold Eigen.norm, Eigen.squaredNorm, Eigen.dot. simpl.
  replace (0 * 0 + 0 * 0 + 1 * 1)%R with 1%R by lra. apply sqrt_1.
Qed.

Lemma Paneled_single_close_to_Cannonball_example :
  closeWithin (/ 10 ^ 10)
    (Cannonball_evaluateRadiationPressureForce 299792458
       {| referenceArea := 2; radiationPressureCoefficient := 16 / 10 |}
       1000 (Vector3d_of 0 0 (-1)))
    (Paneled_evaluateRadiationPressureForce 299792458
       [ {| area := 2; surfaceNormal := Vector3d_of 0 0 1;
            reflectionLaw := reflectionLawFromSpecularAndDiffuseReflectivity (6 / 10) 0 |} ]
       1000 (Vector3d_of 0 0 (-1))).
Proof.
  apply (Paneled_single_close_to_Cannonball 299792458 2 1000
           (Vector3d_of 0 0 (-1)) (Vector3d_of 0 0 1)).
  - vec_eq.
  - exact norm_unit_z.
Defined.

Lemma Paneled_force_pointing_away_example :
  let law := {| absorptivity_ := 2 / 10; specularReflectivity_ := 4 / 10;
                diffuseReflectivity := 4 / 10;
                withInstantaneousLambertianReradiation_ := false |} in
  Paneled_evaluateRadiationPressureForce 299792458
    [ {| area := 1; surfaceNormal := Vector3d_of 1 0 (-1); reflectionLaw := law |};
      {| area := 1; surfaceNormal := Vector3d_of (-1) 0 (-2); reflectionLaw := law |};
      {| area := 1; surfaceNormal := Vector3d_of 0 1 (-3); reflectionLaw := law |};
      {| area := 1; surfaceNormal := Vector3d_of 0 (-1) (-4); reflectionLaw := law |} ]
    1000 (Vector3d_of 0 0 (-1))
  = Eigen.Zero.
Proof.
  intros law.
  apply (Paneled_force_pointing_away 299792458).
  repeat constructor; vec_arith.
Defined.

Lemma Cannonball_force_example :
  Cannonball_evaluateRadiationPressureForce 299792458
    {| referenceArea := 1; radiationPressureCoefficient := 0 |}
    1367 (Vector3d_of (-1) (-1) 0)
  = Eigen.Zero.
Proof. by apply (Cannonball_force 299792458). Defined.

(** ** The acceleration model and its cache *)

(** IEEE comparison with a NaN is false. *)
Lemma eqb_TUDAT_NAN (t : float) : PrimFloat.eqb TUDAT_NAN t = false.
Proof.
  rewrite FloatAxioms.eqb_spec. unfold TUDAT_NAN.
  replace (Prim2SF nan) with S754_nan by reflexivity. reflexivity.
Qed.

Lemma eqb_TUDAT_NAN_r (t : float) : PrimFloat.eqb t TUDAT_NAN = false.
Proof.
  rewrite FloatAxioms.eqb_spec. unfold TUDAT_NAN.
  replace (Prim2SF nan) with S754_nan by reflexivity.
  unfold SFeqb, SFcompare. by destruct (Prim2SF t) as [| [] | | [] ? ?].
Qed.

Section AccelerationProperties.

Local Open Scope R_scope.

Context {World : Type}.
Variable F : Vector3d -> Vector3d -> R -> R -> R -> Vector3d.

Local Abbreviation Self := (@PanelledRadiationPressureAcceleration World).
Local Abbreviation panelStep := (@updateMembers_panel World F).

Implicit Types (self : Self) (w : World) (calls : list ProviderCall) (t : float).

Lemma Eff_bind_Some {A B : Type} (m : Eff World A) (k : A -> Eff World B) w calls r :
  (m ≫= k) w calls = Some r
  <-> exists a calls1, m w calls = Some (a, calls1) /\ k a w calls1 = Some r.
Proof.
  unfold mbind, Eff_bind. split.
  - destruct (m w calls) as [[a calls1]|]; [|done]. intros H. by exists a, calls1.
  - intros (a & calls1 & -> & H). done.
Qed.

Lemma at_index_Some {A : Type} (v : list A) (i : nat) w calls r :
  at_index v i w calls = Some r <-> exists a, v !! i = Some a /\ r = (a, calls).
Proof.
  unfold at_index. destruct (v !! i) as [a|]; split.
  - intros [= <-]. by exists a.
  - by intros (a' & [= <-] & ->).
  - done.
  - by intros (a' & [=] & _).
Qed.

(** One iteration of the loop: what it needs and what it does. *)
Lemma updateMembers_panel_Some (i : nat) self w calls self' calls' :
  panelStep i self w calls = Some (self', calls')
  <-> exists normalF areaF emmisivittyF diffuseF,
      panelSurfaceNormalFunctions_ self !! i = Some normalF
      /\ panelAreaFunctions_ self !! i = Some areaF
      /\ panelEmmisivittyFunctions_ self !! i = Some emmisivittyF
      /\ panelDiffuseReflectionCoefficientFunctions_ self !! i = Some diffuseF
      /\ (i < length (currentPanelAccelerations_ self))%nat
      /\ let a := (currentRadiationPressure_ self / massFunction_ self w)
                    *: F (currentNormalizedVectorToSource_ self) (normalF w) (areaF w)
                         (emmisivittyF w) (diffuseF w) in
         self' = set_currentAcceleration_ (currentAcceleration_ self + a)%vec
                   (set_currentPanelAccelerations_
                      (<[i:=a]> (currentPanelAccelerations_ self)) self)
         /\ calls' = calls ++ [call_massFunction_;
                               call_panelSurfaceNormalFunctions_ i;
                               call_panelAreaFunctions_ i;
                               call_panelEmmisivittyFunctions_ i;
                               call_panelDiffuseReflectionCoefficientFunctions_ i].
Proof.
  unfold updateMembers_panel, mbind, Eff_bind, invoke, at_index, assign_index, mret, Eff_ret.
  destruct (panelSurfaceNormalFunctions_ self !! i) as [normalF|];
    [|split; [done | by intros (? & ? & ? & ? & [=] & _)]].
  destruct (panelAreaFunctions_ self !! i) as [areaF|];
    [|split; [done | by intros (? & ? & ? & ? & _ & [=] & _)]].
  destruct (panelEmmisivittyFunctions_ self !! i) as [emmisivittyF|];
    [|split; [done | by intros (? & ? & ? & ? & _ & _ & [=] & _)]].
  destruct (panelDiffuseReflectionCoefficientFunctions_ self !! i) as [diffuseF|];
    [|split; [done | by intros (? & ? & ? & ? & _ & _ & _ & [=] & _)]].
  case_decide as Hi; [|split; [done | by intros (? & ? & ? & ? & _ & _ & _ & _ & ? & _)]].
  simpl. rewrite list_lookup_insert_eq by done.
  rewrite <- !app_assoc. simpl.
  split.
  - intros [= <- <-]. by exists normalF, areaF, emmisivittyF, diffuseF.
  - intros (? & ? & ? & ? & [= <-] & [= <-] & [= <-] & [= <-] & _ & -> & ->). done.
Qed.

Lemma panelFrame_refl self : panelFrame self self.
Proof. by destruct self. Qed.

(** The loop over the panels, when it runs to its end: it assigns only the
    panel accelerations and the total, leaves the panels below [start]
    alone, and adds to the total the panel accelerations it has stored. *)
Lemma forRange_panels_Some (count : nat) w :
  forall (start : nat) self calls self' calls',
  forRange start count panelStep self w calls = Some (self', calls') ->
  panelFrame self self'
  /\ (exists rest, calls' = calls ++ rest)
  /\ length (currentPanelAccelerations_ self') = length (currentPanelAccelerations_ self)
  /\ (forall j : nat, (j < start)%nat ->
        currentPanelAccelerations_ self' !! j = currentPanelAccelerations_ self !! j)
  /\ foldl (addPanelAcceleration self') (Some (currentAcceleration_ self)) (seq start count)
     = Some (currentAcceleration_ self').
Proof.
  induction count as [|count IH]; intros start self calls self' calls'; simpl.
  - intros [= <- <-]. repeat split; try done.
    + apply panelFrame_refl.
    + exists []. by rewrite app_nil_r.
  - intros (self1 & calls1 & Hstep & Hrest)%Eff_bind_Some.
    apply updateMembers_panel_Some in Hstep
      as (normalF & areaF & emmisivittyF & diffuseF & _ & _ & _ & _ & Hlt & Hself1 & ->).
    apply IH in Hrest as (Hframe & [rest ->] & Hlen & Hbelow & Hsum).
    set (a := (currentRadiationPressure_ self / massFunction_ self w)
                *: F (currentNormalizedVectorToSource_ self) (normalF w) (areaF w)
                     (emmisivittyF w) (diffuseF w)) in *.
    subst self1. simpl in *. rewrite length_insert in Hlen.
    repeat split.
    + etrans; [exact Hframe|]. reflexivity.
    + eexists. by rewrite <- app_assoc.
    + done.
    + intros j Hj. rewrite Hbelow by lia. apply list_lookup_insert_ne. lia.
    + unfold getCurrentPanelAcceleration at 1.
      rewrite Hbelow by lia. rewrite list_lookup_insert_eq by done. exact Hsum.
Qed.

(** The loop runs to its end when every vector it indexes is long enough. *)
Lemma forRange_panels_defined (count : nat) w :
  forall (start : nat) self calls,
  (start + count <= length (currentPanelAccelerations_ self))%nat ->
  (start + count <= length (panelSurfaceNormalFunctions_ self))%nat ->
  (start + count <= length (panelAreaFunctions_ self))%nat ->
  (start + count <= length (panelEmmisivittyFunctions_ self))%nat ->
  (start + count <= length (panelDiffuseReflectionCoefficientFunctions_ self))%nat ->
  is_Some (forRange start count panelStep self w calls).
Proof.
  induction count as [|count IH]; intros start self calls H1 H2 H3 H4 H5; simpl.
  - by eexists.
  - destruct (lookup_lt_is_Some_2 (panelSurfaceNormalFunctions_ self) start)
      as [normalF HnormalF]; [lia|].
    destruct (lookup_lt_is_Some_2 (panelAreaFunctions_ self) start)
      as [areaF HareaF]; [lia|].
    destruct (lookup_lt_is_Some_2 (panelEmmisivittyFunctions_ self) start)
      as [emmisivittyF HemmisivittyF]; [lia|].
    destruct (lookup_lt_is_Some_2 (panelDiffuseReflectionCoefficientFunctions_ self) start)
      as [diffuseF HdiffuseF]; [lia|].
    unfold mbind, Eff_bind.
    destruct (panelStep start self w calls) as [[self1 calls1]|] eqn:Hstep.
    + apply updateMembers_panel_Some in Hstep
        as (? & ? & ? & ? & _ & _ & _ & _ & _ & -> & _).
      apply IH; simpl; rewrite ?length_insert; lia.
    + exfalso.
      assert (Hsome : exists r, panelStep start self w calls = Some r).
      { eexists (_, _). apply updateMembers_panel_Some.
        exists normalF, areaF, emmisivittyF, diffuseF.
        repeat split; try done. lia. }
      destruct Hsome as [r Hr]. congruence.
Qed.

(** [updateMembers_recompute], as its three stages. *)
Lemma updateMembers_recompute_stages t self w calls :
  updateMembers_recompute F t self w calls
  = match
      (if Rgtb (radiationPressureFunction_ self w) 0 then
         forRange 0 (numberOfPanels_ self) panelStep (beforePanels self w)
       else mret (beforePanels self w)) w (calls ++ callsBeforePanels)
    with
    | Some (self', calls') => Some (set_currentTime_ t self', calls')
    | None => None
    end.
Proof.
  unfold updateMembers_recompute, mbind, Eff_bind, invoke, callsBeforePanels. simpl.
  by rewrite <- !app_assoc.
Qed.

(** The guarded block, when the radiation pressure is not positive. *)
Lemma updateMembers_recompute_no_pressure t self w calls :
  radiationPressureFunction_ self w <= 0 ->
  updateMembers_recompute F t self w calls
  = Some (set_currentTime_ t (beforePanels self w), calls ++ callsBeforePanels).
Proof.
  intros Hp. rewrite updateMembers_recompute_stages.
  unfold Rgtb. by apply Rltb_false in Hp as ->.
Qed.

(** What the guarded block has done when it returns: the four providers
    were invoked, and the members hold what they returned. *)
Lemma updateMembers_recompute_Some t self w calls self' calls' :
  updateMembers_recompute F t self w calls = Some (self', calls') ->
  (exists rest, calls' = calls ++ callsBeforePanels ++ rest)
  /\ currentTime_ self' = t
  /\ currentRadiationPressure_ self' = radiationPressureFunction_ self w
  /\ currentMass_ self' = massFunction_ self w
  /\ currentDistanceToSource_ self'
     = Eigen.norm (sourcePositionFunction_ self w - acceleratedBodyPositionFunction_ self w)%vec
  /\ currentNormalizedVectorToSource_ self'
     = Eigen.normalize
         (sourcePositionFunction_ self w - acceleratedBodyPositionFunction_ self w)%vec.
Proof.
  rewrite updateMembers_recompute_stages.
  destruct (Rgtb _ 0).
  - destruct (forRange _ _ _ _ _ _) as [[self2 calls2]|] eqn:Hloop; [|done].
    intros [= <- <-].
    apply forRange_panels_Some in Hloop as (-> & [rest ->] & _).
    repeat split; try done. exists rest. by rewrite <- app_assoc.
  - intros [= <- <-]. repeat split; try done. exists []. by rewrite app_nil_r.
Qed.

(** With one provider of each kind per panel, [updateMembers] never
    indexes a vector out of range: it returns at every time. *)
Lemma updateMembers_defined t self w calls :
  sizesAgree self -> is_Some (updateMembers F t self w calls).
Proof.
  intros (H1 & H2 & H3 & H4 & H5). unfold updateMembers.
  destruct (negb _); [|by eexists].
  rewrite updateMembers_recompute_stages.
  destruct (Rgtb _ 0); [|by eexists].
  destruct (forRange_panels_defined (numberOfPanels_ self) w 0 (beforePanels self w)
              (calls ++ callsBeforePanels)) as [[self2 calls2] ->];
    simpl; try lia.
  by eexists.
Qed.

(** A call at the cached time returns the object and the record of
    invocations as they were. *)
Lemma updateMembers_same_time t self w calls :
  PrimFloat.eqb (currentTime_ self) t = true ->
  updateMembers F t self w calls = Some (self, calls).
Proof. intros H. unfold updateMembers. by rewrite H. Qed.

(** Two consecutive evaluations at one time that is not a NaN: the second
    returns what the first left, in whatever state the world is by then. *)
Lemma updateMembers_consecutive t self w calls self' calls' w' :
  PrimFloat.eqb t t = true ->
  updateMembers F t self w calls = Some (self', calls') ->
  updateMembers F t self' w' calls' = Some (self', calls').
Proof.
  intros Ht Hfirst. apply updateMembers_same_time.
  unfold updateMembers in Hfirst.
  destruct (PrimFloat.eqb (currentTime_ self) t) eqn:Hcached; simpl in Hfirst.
  - injection Hfirst as <- <-. done.
  - apply updateMembers_recompute_Some in Hfirst as (_ & -> & _). done.
Qed.

(** C5: when the time passed to [updateMembers] compares equal to the
    cached one, the call returns the object as it was, every cached member
    and the acceleration included, and the record of provider invocations
    as it was: no provider is invoked and nothing is recomputed.  So the
    second of two consecutive evaluations at one time (a time compares
    equal to itself) returns what the first left. *)
Theorem updateMembers_cached t self w calls :
  (PrimFloat.eqb (currentTime_ self) t = true ->
   updateMembers F t self w calls = Some (self, calls)
   /\ (forall self' calls', updateMembers F t self w calls = Some (self', calls') ->
       getAcceleration self' = getAcceleration self /\ calls' = calls))
  /\ (PrimFloat.eqb t t = true ->
      forall self' calls' w',
        updateMembers F t self w calls = Some (self', calls') ->
        updateMembers F t self' w' calls' = Some (self', calls')).
Proof.
  split.
  - intros H. rewrite (updateMembers_same_time _ _ _ _ H).
    split; [done|]. by intros ? ? [= <- <-].
  - intros Ht self' calls' w'. by apply updateMembers_consecutive.
Qed.

(** Called with the sentinel, [updateMembers] runs the guarded block
    whatever time is cached. *)
Lemma updateMembers_sentinel_block self w calls :
  updateMembers F TUDAT_NAN self w calls
  = updateMembers_recompute F TUDAT_NAN self w calls.
Proof. unfold updateMembers. by rewrite eqb_TUDAT_NAN_r. Qed.

(** So does the first call on a freshly constructed object, whatever its
    argument, as the constructor caches the sentinel. *)
Lemma updateMembers_fresh_block
    sourceF bodyF emmisivittyFs diffuseFs normalFs areaFs pressureF massF
    (uninitialised : Self) t w calls :
  let fresh := construct sourceF bodyF emmisivittyFs diffuseFs normalFs areaFs
                         pressureF massF uninitialised in
  updateMembers F t fresh w calls = updateMembers_recompute F t fresh w calls.
Proof. intros fresh. unfold updateMembers. subst fresh. simpl. by rewrite eqb_TUDAT_NAN. Qed.

(** C9: after [updateMembers] at a new time at which the radiation
    pressure is positive, [getAcceleration] is the sum over all panel
    indices of [getCurrentPanelAcceleration]. *)
Theorem updateMembers_total_is_sum t self w calls :
  sizesAgree self ->
  PrimFloat.eqb (currentTime_ self) t = false ->
  0 < radiationPressureFunction_ self w ->
  exists self' calls',
    updateMembers F t self w calls = Some (self', calls')
    /\ currentRadiationPressure_ self' = radiationPressureFunction_ self w
    /\ sumOfPanelAccelerations self' = Some (getAcceleration self').
Proof.
  intros (H1 & H2 & H3 & H4 & H5) Hnew Hp.
  unfold updateMembers. rewrite Hnew. simpl.
  rewrite updateMembers_recompute_stages.
  unfold Rgtb. apply Rltb_true in Hp as ->.
  destruct (forRange_panels_defined (numberOfPanels_ self) w 0 (beforePanels self w)
              (calls ++ callsBeforePanels)) as [[self2 calls2] Hloop];
    simpl; try lia.
  rewrite Hloop. exists (set_currentTime_ t self2), calls2.
  apply forRange_panels_Some in Hloop as (Hframe & _ & _ & _ & Hsum).
  split; [done|]. split; [by rewrite Hframe|].
  unfold sumOfPanelAccelerations, getAcceleration. simpl.
  replace (numberOfPanels_ self2) with (numberOfPanels_ self) by by rewrite Hframe.
  exact Hsum.
Qed.

(** C10: after [updateMembers] at a new time at which the radiation
    pressure is not positive, the total acceleration is the zero vector,
    only the providers of positions, radiation pressure and mass have
    been invoked, none of a panel, and the stored panel accelerations are
    the ones from before. *)
Theorem updateMembers_no_pressure t self w calls :
  PrimFloat.eqb (currentTime_ self) t = false ->
  radiationPressureFunction_ self w <= 0 ->
  exists self',
    updateMembers F t self w calls = Some (self', calls ++ callsBeforePanels)
    /\ Forall (fun c => isPanelCall c = false) callsBeforePanels
    /\ getAcceleration self' = Eigen.Zero
    /\ currentPanelAccelerations_ self' = currentPanelAccelerations_ self
    /\ forall i : nat, getCurrentPanelAcceleration self' i = getCurrentPanelAcceleration self i.
Proof.
  intros Hnew Hp. exists (set_currentTime_ t (beforePanels self w)).
  unfold updateMembers. rewrite Hnew. simpl.
  rewrite updateMembers_recompute_no_pressure by done.
  repeat split. by repeat constructor.
Qed.

End AccelerationProperties.

(** ** The properties at work on a one-panel body *)

Section Examples.

Local Open Scope R_scope.

Lemma updateMembers_cached_example :
  updateMembers exampleForce 1%float (set_currentTime_ 1%float (exampleModel 1)) tt []
  = Some (set_currentTime_ 1%float (exampleModel 1), [])
  /\ updateMembers exampleForce 1%float
       (set_currentTime_ 1%float (beforePanels (exampleModel 0) tt)) tt
       ([] ++ callsBeforePanels)
     = Some (set_currentTime_ 1%float (beforePanels (exampleModel 0) tt),
             [] ++ callsBeforePanels).
Proof.
  split.
  - by apply (updateMembers_cached exampleForce 1%float
                (set_currentTime_ 1%float (exampleModel 1)) tt []).
  - apply (updateMembers_cached exampleForce 1%float (exampleModel 0) tt []);
      [reflexivity|].
    unfold updateMembers. change (currentTime_ (exampleModel 0)) with TUDAT_NAN.
    rewrite eqb_TUDAT_NAN. cbn [negb].
    apply updateMembers_recompute_no_pressure. simpl. lra.
Defined.

Lemma updateMembers_total_is_sum_example :
  exists self' calls',
    updateMembers exampleForce 1%float (exampleModel 1) tt [] = Some (self', calls')
    /\ currentRadiationPressure_ self' = 1
    /\ sumOfPanelAccelerations self' = Some (getAcceleration self').
Proof.
  apply (updateMembers_total_is_sum exampleForce 1%float (exampleModel 1) tt []).
  - by repeat split.
  - reflexivity.
  - simpl. lra.
Defined.

Lemma updateMembers_no_pressure_example :
  exists self',
    updateMembers exampleForce 1%float (exampleModel 0) tt []
    = Some (self', [] ++ callsBeforePanels)
    /\ Forall (fun c => isPanelCall c = false) callsBeforePanels
    /\ getAcceleration self' = Eigen.Zero
    /\ currentPanelAccelerations_ self' = currentPanelAccelerations_ (exampleModel 0)
    /\ forall i : nat,
         getCurrentPanelAcceleration self' i
         = getCurrentPanelAcceleration (exampleModel 0) i.
Proof.
  apply (updateMembers_no_pressure exampleForce 1%float (exampleModel 0) tt []).
  - reflexivity.
  - simpl. lra.
Defined.

(** A first call on the fresh one-panel body, run through: the nine
    provider invocations in their order, and the acceleration. *)
Lemma updateMembers_first_call_example :
  exists self',
    updateMembers exampleForce 1%float (exampleModel 1) tt []
    = Some (self',
            [call_sourcePositionFunction_; call_acceleratedBodyPositionFunction_;
             call_radiationPressureFunction_; call_massFunction_;
             call_massFunction_; call_panelSurfaceNormalFunctions_ 0;
             call_panelAreaFunctions_ 0; call_panelEmmisivittyFunctions_ 0;
             call_panelDiffuseReflectionCoefficientFunctions_ 0])
    /\ currentDistanceToSource_ self' = 2
    /\ getAcceleration self' = Vector3d_of (3 / 125) 0 0
    /\ getCurrentPanelAcceleration self' 0 = Some (Vector3d_of (3 / 125) 0 0).
Proof.
  assert (Hsqrt : sqrt (2 * 2 + 0 * 0 + 0 * 0) = 2).
  { replace (2 * 2 + 0 * 0 + 0 * 0) with (Rsqr 2) by (unfold Rsqr; lra).
    apply sqrt_Rsqr. lra. }
  unfold updateMembers. change (currentTime_ (exampleModel 1)) with TUDAT_NAN.
  rewrite eqb_TUDAT_NAN. cbn [negb].
  rewrite updateMembers_recompute_stages.
  replace (Rgtb (radiationPressureFunction_ (exampleModel 1) ()) 0) with true
    by (symmetry; apply Rltb_true; simpl; lra).
  change (numberOfPanels_ (exampleModel 1)) with 1%nat.
  destruct (forRange_panels_defined exampleForce 1 () 0
              (beforePanels (exampleModel 1) ()) ([] ++ callsBeforePanels))
    as [[self2 calls2] Hloop]; [simpl; lia ..|].
  rewrite Hloop. cbn [forRange] in Hloop.
  apply Eff_bind_Some in Hloop as (self1 & calls1 & Hstep & [= <- <-]).
  apply updateMembers_panel_Some in Hstep
    as (normalF & areaF & emmisivittyF & diffuseF
        & [= <-] & [= <-] & [= <-] & [= <-] & _ & -> & ->).
  eexists. split; [reflexivity|].
  unfold getAcceleration, getCurrentPanelAcceleration, exampleForce. simpl.
  set (toSource := (Vector3d_of 2 0 0 - Eigen.Zero)%vec).
  assert (Hnorm : Eigen.norm toSource = 2).
  { unfold Eigen.norm. subst toSource. vec_unfold.
    replace (2 - 0) with 2 by lra. replace (0 - 0) with 0 by lra. done. }
  assert (Hnormalized : Eigen.normalize toSource = Vector3d_of 1 0 0).
  { unfold Eigen.normalize. fold (Eigen.norm toSource). rewrite Hnorm.
    destruct (Rlt_dec 0 (Eigen.squaredNorm toSource)) as [_|Hn].
    - subst toSource. vec_eq.
    - exfalso. apply Hn. subst toSource. vec_arith. }
  rewrite Hnorm, Hnormalized.
  repeat split; [| f_equal]; vec_eq.
Qed.

End Examples.

(* ================================================================== *)
(** * Further properties of the reflection law                         *)
(* ================================================================== *)

Section ReflectionGeometry.

Local Open Scope R_scope.

Implicit Types (law : SpecularDiffuseMixReflectionLaw) (n i o v : Vector3d).

Lemma squaredNorm_unit n :
  Eigen.norm n = 1 ->
  coeff0 n * coeff0 n = 1 - coeff1 n * coeff1 n - coeff2 n * coeff2 n.
Proof. intros H%norm_1_squaredNorm. vec_unfold. lra. Qed.

Lemma squaredNorm_nonneg v : 0 <= Eigen.squaredNorm v.
Proof. vec_unfold. nra. Qed.

(** The mirrored vector against the normal: the component along a unit
    normal changes sign. *)
Lemma mirror_dot_normal v n :
  Eigen.norm n = 1 ->
  (v - (2 * (v · n)) *: n)%vec · n = - (v · n).
Proof. intros H%squaredNorm_unit. vec_unfold. ring [H]. Qed.

Lemma mirror_squaredNorm v n :
  Eigen.norm n = 1 ->
  Eigen.squaredNorm (v - (2 * (v · n)) *: n)%vec = Eigen.squaredNorm v.
Proof. intros H%squaredNorm_unit. vec_unfold. ring [H]. Qed.

(** X1: off the front face of a unit normal, [computeMirrorlikeReflection]
    is a reflection: it keeps the length of the vector and reverses its
    component along the normal. *)
Theorem computeMirrorlikeReflection_reflects v n :
  Eigen.norm n = 1 ->
  v · n < 0 ->
  Eigen.norm (computeMirrorlikeReflection v n) = Eigen.norm v
  /\ computeMirrorlikeReflection v n · n = - (v · n).
Proof.
  intros Hunit Hfront. rewrite computeMirrorlikeReflection_front by done. split.
  - unfold Eigen.norm. by rewrite mirror_squaredNorm.
  - by apply mirror_dot_normal.
Qed.

(** X2: a mirrored vector leaves the surface, so mirroring it again about
    the same unit normal gives the zero vector ("no reflection"). *)
Theorem computeMirrorlikeReflection_twice v n :
  Eigen.norm n = 1 ->
  v · n < 0 ->
  computeMirrorlikeReflection (computeMirrorlikeReflection v n) n = Eigen.Zero.
Proof.
  intros Hunit Hfront. apply computeMirrorlikeReflection_back.
  rewrite computeMirrorlikeReflection_front, mirror_dot_normal by done. lra.
Qed.

(** X3: mirroring the mirrored vector about the opposite normal gives the
    vector back. *)
Theorem computeMirrorlikeReflection_round_trip v n :
  Eigen.norm n = 1 ->
  v · n < 0 ->
  computeMirrorlikeReflection (computeMirrorlikeReflection v n) (- n)%vec = v.
Proof.
  intros Hunit Hfront. rewrite (computeMirrorlikeReflection_front v n) by done.
  pose proof (mirror_dot_normal v n Hunit) as Hdot.
  rewrite computeMirrorlikeReflection_front.
  - apply squaredNorm_unit in Hunit. vec_eq; ring [Hunit].
  - replace ((v - (2 * (v · n)) *: n)%vec · (- n)%vec)
      with (- ((v - (2 * (v · n)) *: n)%vec · n)) by (vec_unfold; ring).
    rewrite Hdot. lra.
Qed.

End ReflectionGeometry.

Section ReflectionPhysics.

Local Open Scope R_scope.

Implicit Types (law : SpecularDiffuseMixReflectionLaw) (n i o v : Vector3d).

Lemma dot_opp_r n i : n · (- i)%vec = - (i · n).
Proof. vec_unfold. ring. Qed.

Lemma isApprox_refl v : Eigen.isApprox v v = true.
Proof.
  apply isApprox_true. unfold Eigen.isApprox_prop, Eigen.dummy_precision.
  replace (Eigen.squaredNorm (v - v)%vec) with 0 by (vec_unfold; ring).
  rewrite Rmin_left by lra.
  pose proof (squaredNorm_nonneg v). nra.
Qed.

(** X4: an observer exactly in the mirror direction of radiation that
    strikes the front of a unit normal is itself in front of the panel
    and receives the specular term. *)
Theorem evaluateReflectedFraction_mirror_observer law n i :
  Eigen.norm n = 1 ->
  0 < n · (- i)%vec ->
  n · computeMirrorlikeReflection i n = n · (- i)%vec
  /\ evaluateReflectedFraction law n i (computeMirrorlikeReflection i n)
     = diffuseReflectivity law / PI + specularReflectivity_ law / (n · (- i)%vec).
Proof.
  intros Hunit HcIn.
  assert (Hfront : i · n < 0) by (rewrite dot_opp_r in HcIn; lra).
  assert (HcObs : n · computeMirrorlikeReflection i n = n · (- i)%vec).
  { rewrite computeMirrorlikeReflection_front, dot_opp_r by done.
    rewrite <- (mirror_dot_normal i n Hunit). vec_unfold. ring. }
  split; [done|].
  unfold evaluateReflectedFraction. rewrite HcObs.
  apply Rleb_false in HcIn as ->. simpl.
  by rewrite isApprox_refl.
Qed.

(** X5: with non-negative coefficients the reaction vector never points
    out of the front of the panel and never points back towards the
    source: its component along the normal is not positive, and its
    component along the incoming direction is not negative. *)
Theorem evaluateReactionVector_pushes law n i :
  0 <= absorptivity_ law ->
  0 <= specularReflectivity_ law ->
  0 <= diffuseReflectivity law ->
  evaluateReactionVector law n i · n <= 0
  /\ 0 <= evaluateReactionVector law n i · i.
Proof.
  intros Ha Hs Hd.
  destruct (Rle_lt_dec (n · (- i)%vec) 0) as [Hback|Hfront].
  - rewrite evaluateReactionVector_back by done. vec_unfold. lra.
  - rewrite evaluateReactionVector_front by done.
    set (cIn := n · (- i)%vec) in *.
    set (reradiation := if withInstantaneousLambertianReradiation_ law
                        then 2 / 3 * absorptivity_ law else 0).
    assert (Hr : 0 <= reradiation) by (subst reradiation; destruct (_ law); lra).
    set (reflection := 2 / 3 * diffuseReflectivity law
                       + 2 * specularReflectivity_ law * cIn).
    assert (Hk : 0 <= reflection) by (subst reflection; nra).
    pose proof (squaredNorm_nonneg n) as Hn.
    pose proof (squaredNorm_nonneg i) as Hi.
    assert (Hin : i · n = - cIn) by (subst cIn; rewrite dot_opp_r; lra).
    split.
    + replace (_ · n)
        with ((absorptivity_ law + diffuseReflectivity law) * (i · n)
              - (reflection + reradiation) * Eigen.squaredNorm n).
      * rewrite Hin. nra.
      * subst reflection reradiation cIn.
        destruct (withInstantaneousLambertianReradiation_ law); vec_unfold; ring.
    + replace (_ · i)
        with ((absorptivity_ law + diffuseReflectivity law) * Eigen.squaredNorm i
              - (reflection + reradiation) * (i · n)).
      * rewrite Hin. nra.
      * subst reflection reradiation cIn.
        destruct (withInstantaneousLambertianReradiation_ law); vec_unfold; ring.
Qed.

(** X6: at normal incidence (the normal is the negated unit incoming
    direction) the reaction vector is the incoming direction scaled by
    [absorptivity + 5/3 diffuse + 2 specular], plus [2/3 absorptivity]
    with reradiation; when the three coefficients sum to one this is the
    equivalent cannonball coefficient [1 + specular + 2/3 diffuse]. *)
Theorem evaluateReactionVector_normal_incidence law i :
  Eigen.norm i = 1 ->
  let reradiation :=
    if withInstantaneousLambertianReradiation_ law then 2 / 3 * absorptivity_ law else 0 in
  evaluateReactionVector law (- i)%vec i
  = (absorptivity_ law + 5 / 3 * diffuseReflectivity law
     + 2 * specularReflectivity_ law + reradiation) *: i
  /\ (absorptivity_ law + specularReflectivity_ law + diffuseReflectivity law = 1 ->
      evaluateReactionVector law (- i)%vec i
      = (1 + specularReflectivity_ law + 2 / 3 * diffuseReflectivity law
         + reradiation) *: i).
Proof.
  intros Hunit%norm_1_squaredNorm reradiation.
  assert (HcIn : (- i)%vec · (- i)%vec = 1) by (rewrite <- Hunit; vec_unfold; ring).
  assert (Hgeneral : evaluateReactionVector law (- i)%vec i
                     = (absorptivity_ law + 5 / 3 * diffuseReflectivity law
                        + 2 * specularReflectivity_ law + reradiation) *: i).
  { rewrite evaluateReactionVector_front by (rewrite HcIn; lra).
    rewrite HcIn. subst reradiation.
    destruct (withInstantaneousLambertianReradiation_ law); vec_eq. }
  split; [done|]. intros Hsum. rewrite Hgeneral. f_equal. lra.
Qed.

(** X7: on the front side the reaction vector is a momentum balance: the
    absorbed and diffusely reflected radiation pushes along the incoming
    direction, the specular part pushes by [specularReflectivity] times
    the incoming direction minus its mirror image, and the diffuse (and
    reradiated) part pushes against the normal. *)
Theorem evaluateReactionVector_momentum_balance law n i :
  0 < n · (- i)%vec ->
  evaluateReactionVector law n i
  = ((absorptivity_ law + diffuseReflectivity law) *: i
     + specularReflectivity_ law *: (i - computeMirrorlikeReflection i n)
     - (2 / 3 * diffuseReflectivity law
        + (if withInstantaneousLambertianReradiation_ law
           then 2 / 3 * absorptivity_ law else 0)) *: n)%vec.
Proof.
  intros HcIn.
  assert (Hfront : i · n < 0) by (rewrite dot_opp_r in HcIn; lra).
  rewrite evaluateReactionVector_front, computeMirrorlikeReflection_front by done.
  destruct (withInstantaneousLambertianReradiation_ law); vec_eq.
Qed.

End ReflectionPhysics.

Lemma norm_unit_minus_z : Eigen.norm (Vector3d_of 0 0 (-1)) = 1%R.
Proof.
  unfold Eigen.norm, Eigen.squaredNorm, Eigen.dot. simpl.
  replace (0 * 0 + 0 * 0 + -1 * -1)%R with 1%R by lra. apply sqrt_1.
Qed.

Section ReflectionExamples.

Local Open Scope R_scope.

Lemma computeMirrorlikeReflection_reflects_example :
  Eigen.norm (computeMirrorlikeReflection (Vector3d_of 3 0 (-4)) (Vector3d_of 0 0 1))
  = Eigen.norm (Vector3d_of 3 0 (-4))
  /\ computeMirrorlikeReflection (Vector3d_of 3 0 (-4)) (Vector3d_of 0 0 1)
       · Vector3d_of 0 0 1
     = - (Vector3d_of 3 0 (-4) · Vector3d_of 0 0 1).
Proof.
  apply computeMirrorlikeReflection_reflects; [exact norm_unit_z | vec_arith].
Defined.

Lemma computeMirrorlikeReflection_twice_example :
  computeMirrorlikeReflection
    (computeMirrorlikeReflection (Vector3d_of 3 0 (-4)) (Vector3d_of 0 0 1))
    (Vector3d_of 0 0 1)
  = Eigen.Zero.
Proof.
  apply computeMirrorlikeReflection_twice; [exact norm_unit_z | vec_arith].
Defined.

Lemma computeMirrorlikeReflection_round_trip_example :
  computeMirrorlikeReflection
    (computeMirrorlikeReflection (Vector3d_of 3 0 (-4)) (Vector3d_of 0 0 1))
    (- Vector3d_of 0 0 1)%vec
  = Vector3d_of 3 0 (-4).
Proof.
  apply computeMirrorlikeReflection_round_trip; [exact norm_unit_z | vec_arith].
Defined.

Lemma evaluateReflectedFraction_mirror_observer_example :
  Vector3d_of 0 0 1
    · computeMirrorlikeReflection (Vector3d_of 3 0 (-4)) (Vector3d_of 0 0 1)
  = Vector3d_of 0 0 1 · (- Vector3d_of 3 0 (-4))%vec
  /\ evaluateReflectedFraction exampleLaw (Vector3d_of 0 0 1) (Vector3d_of 3 0 (-4))
       (computeMirrorlikeReflection (Vector3d_of 3 0 (-4)) (Vector3d_of 0 0 1))
     = diffuseReflectivity exampleLaw / PI
       + specularReflectivity_ exampleLaw
         / (Vector3d_of 0 0 1 · (- Vector3d_of 3 0 (-4))%vec).
Proof.
  apply evaluateReflectedFraction_mirror_observer; [exact norm_unit_z | vec_arith].
Defined.

Lemma evaluateReactionVector_pushes_example :
  evaluateReactionVector exampleLaw (Vector3d_of 1 0 1) (Vector3d_of 0 0 (-1))
    · Vector3d_of 1 0 1 <= 0
  /\ 0 <= evaluateReactionVector exampleLaw (Vector3d_of 1 0 1) (Vector3d_of 0 0 (-1))
          · Vector3d_of 0 0 (-1).
Proof. apply evaluateReactionVector_pushes; simpl; lra. Defined.

Lemma evaluateReactionVector_normal_incidence_example :
  evaluateReactionVector exampleLaw (- Vector3d_of 0 0 (-1))%vec (Vector3d_of 0 0 (-1))
  = (1 + 4 / 10 + 2 / 3 * (4 / 10) + 2 / 3 * (2 / 10)) *: Vector3d_of 0 0 (-1).
Proof.
  apply (evaluateReactionVector_normal_incidence exampleLaw (Vector3d_of 0 0 (-1))
           norm_unit_minus_z).
  simpl. lra.
Defined.

Lemma evaluateReactionVector_momentum_balance_example :
  evaluateReactionVector exampleLaw (Vector3d_of 1 0 1) (Vector3d_of 0 0 (-1))
  = ((2 / 10 + 4 / 10) *: Vector3d_of 0 0 (-1)
     + (4 / 10) *: (Vector3d_of 0 0 (-1)
                    - computeMirrorlikeReflection (Vector3d_of 0 0 (-1)) (Vector3d_of 1 0 1))
     - (2 / 3 * (4 / 10) + 2 / 3 * (2 / 10)) *: Vector3d_of 1 0 1)%vec.
Proof.
  apply (evaluateReactionVector_momentum_balance exampleLaw). vec_arith.
Defined.

End ReflectionExamples.

(* ================================================================== *)
(** * Further properties of the acceleration model                     *)
(* ================================================================== *)

Section EigenNorm.

Local Open Scope R_scope.

Lemma squaredNorm_zero (v : Vector3d) : Eigen.squaredNorm v = 0 -> v = Eigen.Zero.
Proof.
  intros H. vec_unfold.
  assert (coeff0 v = 0) by nra. assert (coeff1 v = 0) by nra.
  assert (coeff2 v = 0) by nra. by apply Vector3d_eq.
Qed.

Lemma squaredNorm_pos (v : Vector3d) : v <> Eigen.Zero -> 0 < Eigen.squaredNorm v.
Proof.
  intros Hv. destruct (squaredNorm_nonneg v) as [H|H]; [done|].
  exfalso. apply Hv. by apply squaredNorm_zero.
Qed.

(** [norm] times [normalize] gives the vector back, the zero vector
    included. *)
Lemma norm_scale_normalize (v : Vector3d) :
  Eigen.norm v *: Eigen.normalize v = v.
Proof.
  unfold Eigen.normalize, Eigen.norm.
  destruct (Rlt_dec 0 (Eigen.squaredNorm v)) as [Hpos|Hzero].
  - assert (Hsqrt : 0 < sqrt (Eigen.squaredNorm v)) by by apply sqrt_lt_R0.
    apply Vector3d_eq; simpl; field; lra.
  - assert (Hv : Eigen.squaredNorm v = 0) by (pose proof (squaredNorm_nonneg v); lra).
    rewrite Hv, sqrt_0. rewrite (squaredNorm_zero v Hv). vec_eq.
Qed.

Lemma norm_nonneg (v : Vector3d) : 0 <= Eigen.norm v.
Proof. apply sqrt_pos. Qed.

Lemma norm_normalize (v : Vector3d) : v <> Eigen.Zero -> Eigen.norm (Eigen.normalize v) = 1.
Proof.
  intros Hpos%squaredNorm_pos. unfold Eigen.normalize.
  destruct (Rlt_dec 0 (Eigen.squaredNorm v)) as [_|Hn]; [|done].
  assert (Hsqrt : 0 < sqrt (Eigen.squaredNorm v)) by by apply sqrt_lt_R0.
  unfold Eigen.norm.
  replace (Eigen.squaredNorm (Eigen.divide v (sqrt (Eigen.squaredNorm v)))) with 1;
    [apply sqrt_1|].
  transitivity (Eigen.squaredNorm v
                / (sqrt (Eigen.squaredNorm v) * sqrt (Eigen.squaredNorm v))).
  - rewrite sqrt_sqrt by lra. field. lra.
  - unfold Eigen.divide. vec_unfold. field. lra.
Qed.

Lemma normalize_Zero : Eigen.normalize Eigen.Zero = Eigen.Zero.
Proof.
  unfold Eigen.normalize. destruct (Rlt_dec _ _) as [H|_]; [|done].
  vec_unfold. lra.
Qed.

Lemma norm_Zero : Eigen.norm Eigen.Zero = 0.
Proof.
  unfold Eigen.norm. replace (Eigen.squaredNorm Eigen.Zero) with 0 by (vec_unfold; ring).
  apply sqrt_0.
Qed.

End EigenNorm.

Section AccelerationFurther.

Local Open Scope R_scope.

Context {World : Type}.
Variable F : Vector3d -> Vector3d -> R -> R -> R -> Vector3d.

Local Abbreviation Self := (@PanelledRadiationPressureAcceleration World).
Local Abbreviation panelStep := (@updateMembers_panel World F).

Implicit Types (self : Self) (w : World) (calls : list ProviderCall) (t : float).

(** A recomputing call that returns: the object is the one the loop (or
    its omission) left, with the time stamped. *)
Lemma updateMembers_new_time_Some t self w calls self' calls' :
  PrimFloat.eqb (currentTime_ self) t = false ->
  updateMembers F t self w calls = Some (self', calls') ->
  exists self2,
    self' = set_currentTime_ t self2
    /\ panelFrame (beforePanels self w) self2
    /\ length (currentPanelAccelerations_ self2) = length (currentPanelAccelerations_ self).
Proof.
  intros Hnew. unfold updateMembers. rewrite Hnew. simpl.
  rewrite updateMembers_recompute_stages.
  destruct (Rgtb _ 0).
  - destruct (forRange _ _ _ _ _ _) as [[self2 calls2]|] eqn:Hloop; [|done].
    intros [= <- <-]. exists self2.
    apply forRange_panels_Some in Hloop as (Hframe & _ & Hlen & _). done.
  - intros [= <- <-]. exists (beforePanels self w).
    split; [done|]. split; [apply panelFrame_refl | done].
Qed.

(** A recomputing call at positive pressure, with one provider of each
    kind per panel: the loop runs to its end. *)
Lemma updateMembers_positive_pressure t self w calls :
  sizesAgree self ->
  PrimFloat.eqb (currentTime_ self) t = false ->
  0 < radiationPressureFunction_ self w ->
  exists self2 calls2,
    forRange 0 (numberOfPanels_ self) panelStep (beforePanels self w) w
             (calls ++ callsBeforePanels) = Some (self2, calls2)
    /\ updateMembers F t self w calls = Some (set_currentTime_ t self2, calls2).
Proof.
  intros (H1 & H2 & H3 & H4 & H5) Hnew Hp.
  unfold updateMembers. rewrite Hnew. simpl.
  rewrite updateMembers_recompute_stages.
  unfold Rgtb. apply Rltb_true in Hp as ->.
  destruct (forRange_panels_defined F (numberOfPanels_ self) w 0 (beforePanels self w)
              (calls ++ callsBeforePanels)) as [[self2 calls2] Hloop];
    simpl; try lia.
  exists self2, calls2. by rewrite Hloop.
Qed.

(** The loop over the panels stores, for every panel it visits, the
    pressure over the mass times the normalized force on that panel, and
    records the five provider invocations of each iteration in turn. *)
Lemma forRange_panels_values (count : nat) w :
  forall (start : nat) self calls self' calls',
  forRange start count panelStep self w calls = Some (self', calls') ->
  calls' = calls ++ concat (map callsOfPanel (seq start count))
  /\ forall (j : nat) normalF areaF emmisivittyF diffuseF,
       (start <= j < start + count)%nat ->
       panelSurfaceNormalFunctions_ self !! j = Some normalF ->
       panelAreaFunctions_ self !! j = Some areaF ->
       panelEmmisivittyFunctions_ self !! j = Some emmisivittyF ->
       panelDiffuseReflectionCoefficientFunctions_ self !! j = Some diffuseF ->
       currentPanelAccelerations_ self' !! j
       = Some ((currentRadiationPressure_ self / massFunction_ self w)
                 *: F (currentNormalizedVectorToSource_ self) (normalF w) (areaF w)
                      (emmisivittyF w) (diffuseF w)).
Proof.
  induction count as [|count IH]; intros start self calls self' calls'; simpl.
  - intros [= <- <-]. split; [by rewrite app_nil_r | intros; lia].
  - intros (self1 & calls1 & Hstep & Hrest)%Eff_bind_Some.
    apply updateMembers_panel_Some in Hstep
      as (normalF & areaF & emmisivittyF & diffuseF
          & HnormalF & HareaF & HemmisivittyF & HdiffuseF & Hlt & Hself1 & ->).
    pose proof (forRange_panels_Some F count w _ _ _ _ _ Hrest)
      as (_ & _ & _ & Hbelow & _).
    apply IH in Hrest as (-> & Hvalues).
    subst self1. simpl in *. split.
    + by rewrite <- app_assoc.
    + intros j normalF' areaF' emmisivittyF' diffuseF' Hj H1 H2 H3 H4.
      destruct (decide (j = start)) as [->|Hne].
      * rewrite Hbelow by lia. rewrite list_lookup_insert_eq by done.
        by simplify_eq.
      * apply Hvalues; (done || lia).
Qed.

(** X8: a recomputing [updateMembers] splits the vector from the body to
    the source into a distance and a direction: the distance is not
    negative, the distance times the direction is that vector, the
    direction is a unit vector unless the two positions coincide, and
    then the direction is the zero vector and the distance zero. *)
Theorem updateMembers_direction_and_distance t self w calls :
  sizesAgree self ->
  PrimFloat.eqb (currentTime_ self) t = false ->
  let toSource :=
    (sourcePositionFunction_ self w - acceleratedBodyPositionFunction_ self w)%vec in
  exists self' calls',
    updateMembers F t self w calls = Some (self', calls')
    /\ getCurrentDistanceToSource self' *: getCurrentVectorToSource self' = toSource
    /\ 0 <= getCurrentDistanceToSource self'
    /\ (toSource <> Eigen.Zero -> Eigen.norm (getCurrentVectorToSource self') = 1)
    /\ (toSource = Eigen.Zero ->
        getCurrentVectorToSource self' = Eigen.Zero
        /\ getCurrentDistanceToSource self' = 0).
Proof.
  intros Hsizes Hnew toSource.
  destruct (updateMembers_defined F t self w calls Hsizes) as [[self' calls'] Hsome].
  exists self', calls'. split; [done|].
  apply updateMembers_new_time_Some in Hsome as (self2 & -> & Hframe & _); [|done].
  unfold getCurrentDistanceToSource, getCurrentVectorToSource.
  rewrite Hframe. simpl. fold toSource.
  split; [apply norm_scale_normalize|]. split; [apply norm_nonneg|].
  split; [apply norm_normalize|].
  intros ->. split; [apply normalize_Zero | apply norm_Zero].
Qed.

(** X9: after a recomputing [updateMembers] at positive pressure every
    panel acceleration is the pressure over the mass times the normalized
    single-panel force for that panel's own normal, area, emissivity and
    diffuse coefficient, taken along the unit vector to the source. *)
Theorem updateMembers_panel_accelerations t self w calls :
  sizesAgree self ->
  PrimFloat.eqb (currentTime_ self) t = false ->
  0 < radiationPressureFunction_ self w ->
  exists self' calls',
    updateMembers F t self w calls = Some (self', calls')
    /\ forall (i : nat) normalF areaF emmisivittyF diffuseF,
         panelSurfaceNormalFunctions_ self !! i = Some normalF ->
         panelAreaFunctions_ self !! i = Some areaF ->
         panelEmmisivittyFunctions_ self !! i = Some emmisivittyF ->
         panelDiffuseReflectionCoefficientFunctions_ self !! i = Some diffuseF ->
         getCurrentPanelAcceleration self' i
         = Some ((radiationPressureFunction_ self w / massFunction_ self w)
                   *: F (Eigen.normalize
                           (sourcePositionFunction_ self w
                            - acceleratedBodyPositionFunction_ self w)%vec)
                        (normalF w) (areaF w) (emmisivittyF w) (diffuseF w)).
Proof.
  intros Hsizes Hnew Hp.
  destruct (updateMembers_positive_pressure t self w calls Hsizes Hnew Hp)
    as (self2 & calls2 & Hloop & Hupdate).
  exists (set_currentTime_ t self2), calls2. split; [done|].
  apply forRange_panels_values in Hloop as [_ Hvalues].
  intros i normalF areaF emmisivittyF diffuseF H1 H2 H3 H4.
  unfold getCurrentPanelAcceleration. simpl.
  rewrite (Hvalues i normalF areaF emmisivittyF diffuseF); try done.
  apply lookup_lt_Some in H1. destruct Hsizes as (_ & _ & _ & Hn & _). lia.
Qed.

Lemma mass_calls_of_panels (start count : nat) :
  length (List.filter isMassCall (concat (map callsOfPanel (seq start count)))) = count.
Proof.
  revert start. induction count as [|count IH]; intros start; simpl; [done|].
  by rewrite IH.
Qed.

Lemma length_calls_of_panels (start count : nat) :
  length (concat (map callsOfPanel (seq start count))) = (5 * count)%nat.
Proof.
  revert start. induction count as [|count IH]; intros start; simpl; [done|].
  rewrite IH. lia.
Qed.

(** X10: a recomputing [updateMembers] at positive pressure makes
    [4 + 5 numberOfPanels_] provider invocations, of which
    [1 + numberOfPanels_] go to the mass provider: in some order, the
    two position providers, the pressure provider and the mass provider
    once, and for every panel the mass provider once more and the
    panel's normal, area, emissivity and diffuse-coefficient providers
    once each. *)
Theorem updateMembers_provider_calls t self w calls :
  sizesAgree self ->
  PrimFloat.eqb (currentTime_ self) t = false ->
  0 < radiationPressureFunction_ self w ->
  exists self' invoked,
    updateMembers F t self w calls = Some (self', calls ++ invoked)
    /\ length invoked = (4 + 5 * numberOfPanels_ self)%nat
    /\ length (List.filter isMassCall invoked) = S (numberOfPanels_ self)
    /\ invoked ≡ₚ callsBeforePanels
                   ++ concat (map callsOfPanel (seq 0 (numberOfPanels_ self))).
Proof.
  intros Hsizes Hnew Hp.
  destruct (updateMembers_positive_pressure t self w calls Hsizes Hnew Hp)
    as (self2 & calls2 & Hloop & Hupdate).
  apply forRange_panels_values in Hloop as [-> _].
  exists (set_currentTime_ t self2),
    (callsBeforePanels ++ concat (map callsOfPanel (seq 0 (numberOfPanels_ self)))).
  split; [by rewrite app_assoc|]. split; [|split; [|done]].
  - rewrite length_app, length_calls_of_panels. done.
  - rewrite List.filter_app, length_app, mass_calls_of_panels. done.
Qed.

(** X11: a model constructed with as many diffuse-coefficient, normal and
    area providers as emissivity providers has one entry per panel in
    every vector, and [updateMembers] on it is defined at every time. *)
Theorem construct_sizesAgree
    (sourceF bodyF : World -> Vector3d) (emmisivittyFs diffuseFs : list (World -> R))
    (normalFs : list (World -> Vector3d)) (areaFs : list (World -> R))
    (pressureF massF : World -> R) (uninitialised : Self) :
  length diffuseFs = length emmisivittyFs ->
  length normalFs = length emmisivittyFs ->
  length areaFs = length emmisivittyFs ->
  let fresh := construct sourceF bodyF emmisivittyFs diffuseFs normalFs areaFs
                         pressureF massF uninitialised in
  sizesAgree fresh
  /\ numberOfPanels_ fresh = length emmisivittyFs
  /\ forall t w calls, is_Some (updateMembers F t fresh w calls).
Proof.
  intros H1 H2 H3 fresh.
  assert (Hsizes : sizesAgree fresh).
  { subst fresh. unfold sizesAgree. simpl. by rewrite length_resize. }
  split; [done|]. split; [done|].
  intros t w calls. by apply updateMembers_defined.
Qed.

(** The loop over the panels is undefined when a panel it visits has no
    normal provider. *)
Lemma forRange_panels_undefined (count : nat) w :
  forall (start : nat) self calls (j : nat),
  (start <= j < start + count)%nat ->
  panelSurfaceNormalFunctions_ self !! j = None ->
  forRange start count panelStep self w calls = None.
Proof.
  induction count as [|count IH]; intros start self calls j Hj Hnone; simpl; [lia|].
  unfold mbind, Eff_bind.
  destruct (panelStep start self w calls) as [[self1 calls1]|] eqn:Hstep; [|done].
  apply updateMembers_panel_Some in Hstep as (? & ? & ? & ? & Hsome & _ & _ & _ & _ & -> & _).
  destruct (decide (j = start)) as [->|Hne]; [congruence|].
  apply (IH _ _ _ j); [lia | done].
Qed.

(** X12: the constructor does not compare the sizes of the provider
    vectors.  With fewer normal providers than emissivity providers, a
    recomputing [updateMembers] at positive pressure indexes the vector
    of normal providers out of range. *)
Theorem updateMembers_missing_normal_provider
    (sourceF bodyF : World -> Vector3d) (emmisivittyFs diffuseFs : list (World -> R))
    (normalFs : list (World -> Vector3d)) (areaFs : list (World -> R))
    (pressureF massF : World -> R) (uninitialised : Self) t w calls :
  (length normalFs < length emmisivittyFs)%nat ->
  0 < pressureF w ->
  updateMembers F t
    (construct sourceF bodyF emmisivittyFs diffuseFs normalFs areaFs
               pressureF massF uninitialised) w calls
  = None.
Proof.
  intros Hshort Hp. unfold updateMembers. simpl.
  unfold AccelerationModel_initialTime. rewrite eqb_TUDAT_NAN. simpl.
  rewrite updateMembers_recompute_stages. simpl.
  unfold Rgtb. apply Rltb_true in Hp as ->.
  rewrite (forRange_panels_undefined _ w 0 _ _ (length normalFs)); [done | lia |].
  simpl. by apply lookup_ge_None_2.
Qed.

(** What a returning [updateMembers] leaves alone: the providers and the
    number of panels, and the length of the vector of panel
    accelerations. *)
Lemma updateMembers_frame t self w calls self' calls' :
  updateMembers F t self w calls = Some (self', calls') ->
  sourcePositionFunction_ self' = sourcePositionFunction_ self
  /\ acceleratedBodyPositionFunction_ self' = acceleratedBodyPositionFunction_ self
  /\ radiationPressureFunction_ self' = radiationPressureFunction_ self
  /\ massFunction_ self' = massFunction_ self
  /\ panelEmmisivittyFunctions_ self' = panelEmmisivittyFunctions_ self
  /\ panelDiffuseReflectionCoefficientFunctions_ self'
     = panelDiffuseReflectionCoefficientFunctions_ self
  /\ panelSurfaceNormalFunctions_ self' = panelSurfaceNormalFunctions_ self
  /\ panelAreaFunctions_ self' = panelAreaFunctions_ self
  /\ numberOfPanels_ self' = numberOfPanels_ self
  /\ length (currentPanelAccelerations_ self') = length (currentPanelAccelerations_ self).
Proof.
  destruct (PrimFloat.eqb (currentTime_ self) t) eqn:Hcached.
  - rewrite updateMembers_same_time by done. by intros [= <- <-].
  - intros (self2 & -> & Hframe & Hlen)%updateMembers_new_time_Some; [|done].
    simpl. rewrite Hframe. simpl. by rewrite <- Hlen.
Qed.

(** X13: [updateMembers] keeps the sizes of the vectors in agreement and
    never changes a provider or the number of panels: a model with one
    provider of each kind per panel stays one, so every further
    [updateMembers] on it is defined as well. *)
Theorem updateMembers_keeps_sizes t self w calls :
  sizesAgree self ->
  exists self' calls',
    updateMembers F t self w calls = Some (self', calls')
    /\ sizesAgree self'
    /\ numberOfPanels_ self' = numberOfPanels_ self
    /\ getMassFunction self' = getMassFunction self
    /\ panelSurfaceNormalFunctions_ self' = panelSurfaceNormalFunctions_ self
    /\ forall t' w' calls'', is_Some (updateMembers F t' self' w' calls'').
Proof.
  intros Hsizes.
  destruct (updateMembers_defined F t self w calls Hsizes) as [[self' calls'] Hsome].
  exists self', calls'. split; [done|].
  apply updateMembers_frame in Hsome
    as (_ & _ & _ & Hmass & Hem & Hdiff & Hnormal & Harea & Hn & Hlen).
  assert (Hsizes' : sizesAgree self').
  { unfold sizesAgree in *. by rewrite Hlen, Hem, Hdiff, Hnormal, Harea, Hn. }
  split; [done|]. split; [done|]. split; [done|]. split; [done|].
  intros. by apply updateMembers_defined.
Qed.

(** X14: a call with the sentinel never fills the cache: whatever time
    the next [updateMembers] is called with, the sentinel included, it
    runs the guarded block again. *)
Theorem updateMembers_sentinel_never_caches self w calls self' calls' :
  updateMembers F TUDAT_NAN self w calls = Some (self', calls') ->
  currentTime_ self' = TUDAT_NAN
  /\ forall t' w' calls'',
       updateMembers F t' self' w' calls''
       = updateMembers_recompute F t' self' w' calls''.
Proof.
  unfold updateMembers at 1. rewrite eqb_TUDAT_NAN_r. simpl.
  intros (_ & Htime & _)%updateMembers_recompute_Some.
  split; [done|]. intros. unfold updateMembers. by rewrite Htime, eqb_TUDAT_NAN.
Qed.

Lemma getCurrentPanelSurfaceNormal_run self (i : nat) w calls :
  getCurrentPanelSurfaceNormalInPropagationFrame self i w calls
  = match panelSurfaceNormalFunctions_ self !! i with
    | Some normalF => Some (normalF w, calls ++ [call_panelSurfaceNormalFunctions_ i])
    | None => None
    end.
Proof.
  unfold getCurrentPanelSurfaceNormalInPropagationFrame, mbind, Eff_bind, at_index, invoke.
  by destruct (_ !! i).
Qed.

(** X15: [getCurrentPanelSurfaceNormalInPropagationFrame] does not return
    a normal stored by [updateMembers]: after an [updateMembers] in one
    world it invokes the panel's normal provider once more and returns
    what the provider gives in the world it is called in; for an index
    without provider it is undefined. *)
Theorem getCurrentPanelSurfaceNormal_fresh t self w calls self' calls' :
  updateMembers F t self w calls = Some (self', calls') ->
  forall (i : nat) w' calls'',
    (forall normalF, panelSurfaceNormalFunctions_ self !! i = Some normalF ->
       getCurrentPanelSurfaceNormalInPropagationFrame self' i w' calls''
       = Some (normalF w', calls'' ++ [call_panelSurfaceNormalFunctions_ i]))
    /\ (panelSurfaceNormalFunctions_ self !! i = None ->
        getCurrentPanelSurfaceNormalInPropagationFrame self' i w' calls'' = None).
Proof.
  intros (_ & _ & _ & _ & _ & _ & Hnormal & _)%updateMembers_frame i w' calls''.
  rewrite getCurrentPanelSurfaceNormal_run, Hnormal.
  split; [by intros normalF -> | by intros ->].
Qed.

(** The guarded block at positive pressure, with one provider of each
    kind per panel: the loop runs to its end. *)
Lemma updateMembers_recompute_positive_pressure t self w calls :
  sizesAgree self ->
  0 < radiationPressureFunction_ self w ->
  exists self2 calls2,
    forRange 0 (numberOfPanels_ self) panelStep (beforePanels self w) w
             (calls ++ callsBeforePanels) = Some (self2, calls2)
    /\ updateMembers_recompute F t self w calls = Some (set_currentTime_ t self2, calls2).
Proof.
  intros (H1 & H2 & H3 & H4 & H5) Hp.
  rewrite updateMembers_recompute_stages.
  unfold Rgtb. apply Rltb_true in Hp as ->.
  destruct (forRange_panels_defined F (numberOfPanels_ self) w 0 (beforePanels self w)
              (calls ++ callsBeforePanels)) as [[self2 calls2] Hloop];
    simpl; try lia.
  exists self2, calls2. by rewrite Hloop.
Qed.

Lemma callsBeforePanels_invoked (rest : list ProviderCall) :
  call_sourcePositionFunction_ ∈ callsBeforePanels ++ rest
  /\ call_acceleratedBodyPositionFunction_ ∈ callsBeforePanels ++ rest
  /\ call_radiationPressureFunction_ ∈ callsBeforePanels ++ rest
  /\ call_massFunction_ ∈ callsBeforePanels ++ rest.
Proof.
  unfold callsBeforePanels.
  repeat split; apply elem_of_app; left; rewrite !elem_of_cons; tauto.
Qed.

(** The guarded block of [updateMembers] recomputes every cached
    quantity, and returns, on a model with one provider of each kind per
    panel. *)
Lemma updateMembers_recompute_recomputes t self w calls :
  sizesAgree self ->
  exists self' calls',
    updateMembers_recompute F t self w calls = Some (self', calls')
    /\ recomputed F t self w calls self' calls'.
Proof.
  intros Hsizes.
  destruct (Rle_lt_dec (radiationPressureFunction_ self w) 0) as [Hle|Hpos].
  - rewrite updateMembers_recompute_no_pressure by done.
    eexists _, _. split; [reflexivity|].
    unfold recomputed, getCurrentVectorToSource, getCurrentDistanceToSource,
      getCurrentRadiationPressure, getCurrentMass, getAcceleration. simpl.
    split.
    { exists callsBeforePanels. split; [done|].
      rewrite <- (app_nil_r callsBeforePanels). apply callsBeforePanels_invoked. }
    repeat split; try done. all: intros; lra.
  - destruct (updateMembers_recompute_positive_pressure t self w calls Hsizes Hpos)
      as (self2 & calls2 & Hloop & ->).
    eexists _, _. split; [reflexivity|].
    pose proof (forRange_panels_Some F _ w _ _ _ _ _ Hloop)
      as (Hframe & [rest ->] & _ & _ & Hsum).
    apply forRange_panels_values in Hloop as [_ Hvalues].
    unfold recomputed, getCurrentVectorToSource, getCurrentDistanceToSource,
      getCurrentRadiationPressure, getCurrentMass. simpl.
    split.
    { exists (callsBeforePanels ++ rest). split; [by rewrite app_assoc|].
      apply callsBeforePanels_invoked. }
    split; [done|].
    split; [by rewrite Hframe|]. split; [by rewrite Hframe|].
    split; [by rewrite Hframe|]. split; [by rewrite Hframe|].
    split; [intros; lra|]. intros _. split.
    + unfold sumOfPanelAccelerations, getAcceleration. simpl.
      replace (numberOfPanels_ self2) with (numberOfPanels_ self) by by rewrite Hframe.
      exact Hsum.
    + intros i normalF areaF emmisivittyF diffuseF H1 H2 H3 H4.
      unfold getCurrentPanelAcceleration. simpl.
      rewrite (Hvalues i normalF areaF emmisivittyF diffuseF); try done.
      apply lookup_lt_Some in H1. destruct Hsizes as (_ & _ & _ & Hn & _). lia.
Qed.

Lemma construct_sizes
    (sourceF bodyF : World -> Vector3d) (emmisivittyFs diffuseFs : list (World -> R))
    (normalFs : list (World -> Vector3d)) (areaFs : list (World -> R))
    (pressureF massF : World -> R) (uninitialised : Self) :
  length diffuseFs = length emmisivittyFs ->
  length normalFs = length emmisivittyFs ->
  length areaFs = length emmisivittyFs ->
  sizesAgree (construct sourceF bodyF emmisivittyFs diffuseFs normalFs areaFs
                        pressureF massF uninitialised).
Proof. intros H1 H2 H3. unfold sizesAgree. simpl. by rewrite length_resize. Qed.

(** C8: called with the sentinel, [updateMembers] takes the guarded block
    whatever time is cached, and so does the first call on a freshly
    constructed object, whatever its argument, as the constructor caches
    the sentinel.  In both cases, on a model with one provider of each
    kind per panel, the call returns and has recomputed every cached
    quantity: the position, pressure and mass providers have been
    invoked, the time, the unit vector and distance to the source, the
    pressure and the mass are the current ones, and the total
    acceleration is the zero vector for a pressure that is not positive
    and otherwise the sum of the panel accelerations, each of which is
    the current one of its panel. *)
Theorem updateMembers_sentinel :
  (forall self w calls,
     updateMembers F TUDAT_NAN self w calls
     = updateMembers_recompute F TUDAT_NAN self w calls)
  /\ (forall self w calls,
        sizesAgree self ->
        exists self' calls',
          updateMembers F TUDAT_NAN self w calls = Some (self', calls')
          /\ recomputed F TUDAT_NAN self w calls self' calls')
  /\ (forall sourceF bodyF emmisivittyFs diffuseFs normalFs areaFs pressureF massF
             (uninitialised : Self) t w calls,
        let fresh := construct sourceF bodyF emmisivittyFs diffuseFs normalFs areaFs
                               pressureF massF uninitialised in
        updateMembers F t fresh w calls = updateMembers_recompute F t fresh w calls
        /\ (length diffuseFs = length emmisivittyFs ->
            length normalFs = length emmisivittyFs ->
            length areaFs = length emmisivittyFs ->
            exists self' calls',
              updateMembers F t fresh w calls = Some (self', calls')
              /\ recomputed F t fresh w calls self' calls')).
Proof.
  split; [|split].
  - intros. apply updateMembers_sentinel_block.
  - intros self w calls Hsizes. rewrite updateMembers_sentinel_block.
    by apply updateMembers_recompute_recomputes.
  - intros. split; [apply updateMembers_fresh_block|].
    intros H1 H2 H3. subst fresh. rewrite updateMembers_fresh_block.
    apply updateMembers_recompute_recomputes. by apply construct_sizes.
Qed.

End AccelerationFurther.

Section AccelerationFurtherExamples.

Local Open Scope R_scope.

Lemma exampleModel_sizesAgree (pressure : R) : sizesAgree (exampleModel pressure).
Proof. by repeat split. Qed.

Lemma exampleModel_update_without_pressure (t : float) :
  updateMembers exampleForce t (exampleModel 0) tt []
  = Some (set_currentTime_ t (beforePanels (exampleModel 0) tt), [] ++ callsBeforePanels).
Proof.
  unfold updateMembers. change (currentTime_ (exampleModel 0)) with TUDAT_NAN.
  rewrite eqb_TUDAT_NAN. cbn [negb].
  apply updateMembers_recompute_no_pressure. simpl. lra.
Qed.

Lemma updateMembers_sentinel_example :
  (exists self' calls',
     updateMembers exampleForce TUDAT_NAN (set_currentTime_ 1%float (exampleModel 1)) tt []
     = Some (self', calls')
     /\ recomputed exampleForce TUDAT_NAN (set_currentTime_ 1%float (exampleModel 1)) tt []
          self' calls')
  /\ (exists self' calls',
        updateMembers exampleForce 1%float (exampleModel 1) tt [] = Some (self', calls')
        /\ recomputed exampleForce 1%float (exampleModel 1) tt [] self' calls').
Proof.
  destruct (@updateMembers_sentinel unit exampleForce) as (_ & Hsentinel & Hfresh).
  split.
  - apply Hsentinel. by repeat split.
  - by apply (Hfresh (fun _ => Vector3d_of 2 0 0) (fun _ => Eigen.Zero)
                [fun _ => 1 / 2] [fun _ => 1 / 10] [fun _ => Vector3d_of 1 0 0]
                [fun _ => 2] (fun _ => 1) (fun _ => 100) exampleStorage 1%float tt []).
Defined.

Lemma updateMembers_direction_and_distance_example :
  let toSource := (Vector3d_of 2 0 0 - Eigen.Zero)%vec in
  exists self' calls',
    updateMembers exampleForce 1%float (exampleModel 1) tt [] = Some (self', calls')
    /\ getCurrentDistanceToSource self' *: getCurrentVectorToSource self' = toSource
    /\ 0 <= getCurrentDistanceToSource self'
    /\ (toSource <> Eigen.Zero -> Eigen.norm (getCurrentVectorToSource self') = 1)
    /\ (toSource = Eigen.Zero ->
        getCurrentVectorToSource self' = Eigen.Zero
        /\ getCurrentDistanceToSource self' = 0).
Proof.
  apply (updateMembers_direction_and_distance exampleForce 1%float (exampleModel 1) tt []).
  - apply exampleModel_sizesAgree.
  - reflexivity.
Defined.

Lemma updateMembers_panel_accelerations_example :
  exists self' calls',
    updateMembers exampleForce 1%float (exampleModel 1) tt [] = Some (self', calls')
    /\ getCurrentPanelAcceleration self' 0
       = Some ((1 / 100)
                 *: exampleForce (Eigen.normalize (Vector3d_of 2 0 0 - Eigen.Zero)%vec)
                      (Vector3d_of 1 0 0) 2 (1 / 2) (1 / 10)).
Proof.
  destruct (updateMembers_panel_accelerations exampleForce 1%float (exampleModel 1) tt [])
    as (self' & calls' & Hupdate & Hpanels).
  - apply exampleModel_sizesAgree.
  - reflexivity.
  - simpl. lra.
  - exists self', calls'. split; [done|].
    by apply (Hpanels 0%nat (fun _ => Vector3d_of 1 0 0) (fun _ => 2)
                (fun _ => 1 / 2) (fun _ => 1 / 10)).
Defined.

Lemma updateMembers_provider_calls_example :
  exists self' invoked,
    updateMembers exampleForce 1%float (exampleModel 1) tt [] = Some (self', [] ++ invoked)
    /\ length invoked = (4 + 5 * 1)%nat
    /\ length (List.filter isMassCall invoked) = 2%nat
    /\ invoked ≡ₚ callsBeforePanels ++ concat (map callsOfPanel (seq 0 1)).
Proof.
  apply (updateMembers_provider_calls exampleForce 1%float (exampleModel 1) tt []).
  - apply exampleModel_sizesAgree.
  - reflexivity.
  - simpl. lra.
Defined.

Lemma construct_sizesAgree_example :
  sizesAgree (exampleModel 1)
  /\ numberOfPanels_ (exampleModel 1) = 1%nat
  /\ forall t w calls, is_Some (updateMembers exampleForce t (exampleModel 1) w calls).
Proof.
  by apply (construct_sizesAgree exampleForce (fun _ => Vector3d_of 2 0 0)
              (fun _ => Eigen.Zero) [fun _ => 1 / 2] [fun _ => 1 / 10]
              [fun _ => Vector3d_of 1 0 0] [fun _ => 2] (fun _ => 1) (fun _ => 100)
              exampleStorage).
Defined.

Lemma updateMembers_missing_normal_provider_example :
  updateMembers exampleForce 1%float
    (construct (fun _ => Vector3d_of 2 0 0) (fun _ => Eigen.Zero)
               [fun _ => 1 / 2] [fun _ => 1 / 10] [] [fun _ => 2]
               (fun _ : unit => 1) (fun _ => 100) exampleStorage) tt []
  = None.
Proof.
  apply (updateMembers_missing_normal_provider exampleForce).
  - simpl. lia.
  - lra.
Defined.

Lemma updateMembers_keeps_sizes_example :
  exists self' calls',
    updateMembers exampleForce 1%float (exampleModel 1) tt [] = Some (self', calls')
    /\ sizesAgree self'
    /\ numberOfPanels_ self' = numberOfPanels_ (exampleModel 1)
    /\ getMassFunction self' = getMassFunction (exampleModel 1)
    /\ panelSurfaceNormalFunctions_ self' = panelSurfaceNormalFunctions_ (exampleModel 1)
    /\ forall t' w' calls'', is_Some (updateMembers exampleForce t' self' w' calls'').
Proof.
  apply (updateMembers_keeps_sizes exampleForce 1%float (exampleModel 1) tt []).
  apply exampleModel_sizesAgree.
Defined.

Lemma updateMembers_sentinel_never_caches_example :
  let self' := set_currentTime_ TUDAT_NAN (beforePanels (exampleModel 0) tt) in
  currentTime_ self' = TUDAT_NAN
  /\ forall t' w' calls'',
       updateMembers exampleForce t' self' w' calls''
       = updateMembers_recompute exampleForce t' self' w' calls''.
Proof.
  intros self'.
  apply (updateMembers_sentinel_never_caches exampleForce (exampleModel 0) tt []
           self' ([] ++ callsBeforePanels)).
  apply exampleModel_update_without_pressure.
Defined.

Lemma getCurrentPanelSurfaceNormal_fresh_example :
  let self' := set_currentTime_ 1%float (beforePanels (exampleModel 0) tt) in
  getCurrentPanelSurfaceNormalInPropagationFrame self' 0 tt []
  = Some (Vector3d_of 1 0 0, [call_panelSurfaceNormalFunctions_ 0])
  /\ getCurrentPanelSurfaceNormalInPropagationFrame self' 1 tt [] = None.
Proof.
  intros self'.
  pose proof (getCurrentPanelSurfaceNormal_fresh exampleForce 1%float (exampleModel 0) tt []
                self' ([] ++ callsBeforePanels)
                (exampleModel_update_without_pressure 1%float)) as Hfresh.
  split.
  - destruct (Hfresh 0%nat tt []) as [Hsome _].
    by apply (Hsome (fun _ => Vector3d_of 1 0 0)).
  - destruct (Hfresh 1%nat tt []) as [_ Hnone]. by apply Hnone.
Defined.

End AccelerationFurtherExamples.

(* ================================================================== *)
(** * Further properties of the paneled target model                   *)
(* ================================================================== *)

Section LateralCancellation.

Local Open Scope R_scope.

Variable speedOfLight : R.

(** X16: the situation of [testPaneledRadiationPressureTargetModel_LateralCancellation]
    (unitTestRadiationPressureTargetModel.cpp l.110-133), for any law with
    non-negative coefficients: four panels of one area whose normals
    [(±alpha, 0, gamma)], [(0, ±alpha, gamma)] lean symmetrically about
    the axis of radiation coming down along [-z] feel no lateral force,
    and the force along [z] is not positive. *)
Theorem Paneled_force_lateral_cancellation
    (law : SpecularDiffuseMixReflectionLaw) (A E alpha gamma : R) :
  0 <= absorptivity_ law ->
  0 <= specularReflectivity_ law ->
  0 <= diffuseReflectivity law ->
  0 < gamma ->
  0 <= E / speedOfLight * A ->
  let panel n := {| area := A; surfaceNormal := n; reflectionLaw := law |} in
  let force :=
    Paneled_evaluateRadiationPressureForce speedOfLight
      [panel (Vector3d_of alpha 0 gamma); panel (Vector3d_of (- alpha) 0 gamma);
       panel (Vector3d_of 0 alpha gamma); panel (Vector3d_of 0 (- alpha) gamma)]
      E (Vector3d_of 0 0 (-1)) in
  coeff0 force = 0 /\ coeff1 force = 0 /\ coeff2 force <= 0.
Proof.
  intros Ha Hs Hd Hgamma Hk panel force.
  set (k := E / speedOfLight * A) in *.
  assert (Hfront : forall x y : R,
             evaluateReactionVector law (Vector3d_of x y gamma) (Vector3d_of 0 0 (-1))
             = ((absorptivity_ law + diffuseReflectivity law) *: Vector3d_of 0 0 (-1)
                + (- (2 / 3 * diffuseReflectivity law
                      + 2 * specularReflectivity_ law * gamma)) *: Vector3d_of x y gamma
                + (if withInstantaneousLambertianReradiation_ law
                   then (- (2 / 3 * absorptivity_ law)) *: Vector3d_of x y gamma
                   else Eigen.Zero))%vec).
  { intros x y.
    assert (HcIn : Vector3d_of x y gamma · (- Vector3d_of 0 0 (-1))%vec = gamma)
      by (vec_unfold; ring).
    rewrite evaluateReactionVector_front by (rewrite HcIn; lra). by rewrite HcIn. }
  subst force panel. unfold Paneled_evaluateRadiationPressureForce. simpl.
  rewrite !Hfront. fold k.
  set (reflection := 2 / 3 * diffuseReflectivity law
                     + 2 * specularReflectivity_ law * gamma).
  assert (Hreflection : 0 <= reflection) by (subst reflection; nra).
  assert (H1 : 0 <= k * (absorptivity_ law + diffuseReflectivity law))
    by (apply Rmult_le_pos; lra).
  assert (H2 : 0 <= k * (reflection * gamma))
    by (apply Rmult_le_pos; [done | apply Rmult_le_pos; lra]).
  assert (H3 : 0 <= k * (2 / 3 * absorptivity_ law * gamma))
    by (apply Rmult_le_pos; [done | apply Rmult_le_pos; lra]).
  destruct (withInstantaneousLambertianReradiation_ law); vec_unfold.
  - repeat split; try ring.
    replace (_ + _) with (- 4 * (k * (absorptivity_ law + diffuseReflectivity law))
                          - 4 * (k * (reflection * gamma))
                          - 4 * (k * (2 / 3 * absorptivity_ law * gamma))) by ring.
    lra.
  - repeat split; try ring.
    replace (_ + _) with (- 4 * (k * (absorptivity_ law + diffuseReflectivity law))
                          - 4 * (k * (reflection * gamma))) by ring.
    lra.
Qed.

End LateralCancellation.

Lemma Paneled_force_lateral_cancellation_example :
  let law := {| absorptivity_ := 0; specularReflectivity_ := 0;
                diffuseReflectivity := 1;
                withInstantaneousLambertianReradiation_ := false |} in
  let panel n := {| area := 1; surfaceNormal := n; reflectionLaw := law |} in
  let force :=
    Paneled_evaluateRadiationPressureForce 299792458
      [panel (Vector3d_of 1 0 1); panel (Vector3d_of (- 1) 0 1);
       panel (Vector3d_of 0 1 1); panel (Vector3d_of 0 (- 1) 1)]
      1000 (Vector3d_of 0 0 (-1)) in
  coeff0 force = 0%R /\ coeff1 force = 0%R /\ (coeff2 force <= 0)%R.
Proof.
  intros law.
  apply (Paneled_force_lateral_cancellation 299792458 law 1 1000 1 1);
    simpl; lra.
Defined.

(* ================================================================== *)
(** * Properties of the aerodynamic coefficient frames                 *)
(* ================================================================== *)

Section CoefficientFrameProperties.

Local Open Scope R_scope.

Variable AerodynamicsReferenceFrames : Type.
Variables body_frame aerodynamic_frame : AerodynamicsReferenceFrames.

Local Abbreviation convert :=
  (convertCoefficientFrameToGeneralAerodynamicFrame
     AerodynamicsReferenceFrames body_frame aerodynamic_frame).
Local Abbreviation complete :=
  (getCompleteFrameForCoefficients AerodynamicsReferenceFrames body_frame aerodynamic_frame).

(** X17: [getAerodynamicCoefficientFrame] never throws and never returns
    the undefined frame; the frame it returns decodes back to the two
    booleans through [getCompleteFrameForCoefficients] and
    [areCoefficientsInNegativeDirection], and
    [convertCoefficientFrameToGeneralAerodynamicFrame] gives the same
    frame with the sign -1 or 1; different booleans give different
    frames. *)
Theorem getAerodynamicCoefficientFrame_decodes (inAerodynamicFrame inNegativeDirection : bool) :
  exists frame,
    getAerodynamicCoefficientFrame inAerodynamicFrame inNegativeDirection = Returns frame
    /\ frame <> undefined_frame_coefficients
    /\ complete frame
       = Returns (if inAerodynamicFrame then aerodynamic_frame else body_frame)
    /\ areCoefficientsInNegativeDirection frame = Returns inNegativeDirection
    /\ convert frame
       = Returns (if inAerodynamicFrame then aerodynamic_frame else body_frame,
                  if inNegativeDirection then -1 else 1)
    /\ forall inAerodynamicFrame' inNegativeDirection',
         getAerodynamicCoefficientFrame inAerodynamicFrame' inNegativeDirection'
         = Returns frame ->
         inAerodynamicFrame' = inAerodynamicFrame
         /\ inNegativeDirection' = inNegativeDirection.
Proof.
  destruct inAerodynamicFrame, inNegativeDirection; eexists;
    (split; [reflexivity|]); (split; [done|]); (split; [reflexivity|]);
    (split; [reflexivity|]); (split; [reflexivity|]);
    by intros [] [] [=].
Qed.

(** X18: the three decoders throw a runtime error for the undefined frame
    and for no other; every other frame is what
    [getAerodynamicCoefficientFrame] returns for some pair of booleans. *)
Theorem coefficient_frame_decoders_defined (frame : AerodynamicCoefficientFrames) :
  (frame = undefined_frame_coefficients <-> convert frame = Throws std_runtime_error)
  /\ (frame = undefined_frame_coefficients <-> complete frame = Throws std_runtime_error)
  /\ (frame = undefined_frame_coefficients
      <-> areCoefficientsInNegativeDirection frame = Throws std_runtime_error)
  /\ (frame <> undefined_frame_coefficients
      <-> exists inAerodynamicFrame inNegativeDirection,
            getAerodynamicCoefficientFrame inAerodynamicFrame inNegativeDirection
            = Returns frame).
Proof.
  repeat split; try (by destruct frame); try (by intros ->).
  - intros Hdefined.
    destruct frame; [by exists false, false | by exists false, true
                     | by exists true, true | by exists true, false | done].
  - by intros ([] & [] & [= <-]).
Qed.

End CoefficientFrameProperties.

(* ================================================================== *)
(** * Properties of the aerodynamic coefficient interface              *)
(* ================================================================== *)

Section CoefficientInterfaceProperties.

Local Open Scope R_scope.

Context {IndependentVariable ControlSurface MomentContribution : Type}.

Local Abbreviation Interface :=
  (AerodynamicCoefficientInterface IndependentVariable ControlSurface MomentContribution).

Implicit Types (self : Interface) (name : string).

(** X19: on a constructed interface [getIndependentVariableName] returns
    the name at the index when there is one and throws a runtime error
    otherwise; the range check of [std::vector::at] never fires. *)
Theorem getIndependentVariableName_bounds
    (referenceLength referenceArea : R) (momentReferencePoint : Vector3d)
    (names : list IndependentVariable)
    (forceFrame momentFrame : AerodynamicCoefficientFrames) (uninitialised : Interface)
    (index : nat) :
  let self := AerodynamicCoefficientInterface_construct _ _ _ referenceLength referenceArea
                momentReferencePoint names forceFrame momentFrame uninitialised in
  getNumberOfIndependentVariables _ _ _ self = length names
  /\ getIndependentVariableName _ _ _ self index
     = match names !! index with
       | Some variable => Returns variable
       | None => Throws std_runtime_error
       end.
Proof.
  intros self. split; [done|].
  unfold getIndependentVariableName, vector_at. simpl.
  destruct (names !! index) as [variable|] eqn:Hlookup.
  - apply lookup_lt_Some in Hlookup.
    by destruct (Nat.leb_spec (length names) index); [lia|].
  - apply lookup_ge_None in Hlookup.
    by destruct (Nat.leb_spec (length names) index); [|lia].
Qed.

(** Every listed control surface name has an interface, and every
    interface is listed under its name. *)
Definition namesMatchInterfaces self : Prop :=
  forall name,
    name ∈ getControlSurfaceNames _ _ _ self
    <-> is_Some (controlSurfaceIncrementInterfaces_ _ _ _ self !! name).

(** X20: the list of control surface names and the map of control surface
    interfaces describe the same surfaces on a constructed interface
    (none), and [addControlSurface] keeps it so. *)
Theorem addControlSurface_names_match :
  (forall referenceLength referenceArea momentReferencePoint
          (names : list IndependentVariable) forceFrame momentFrame
          (uninitialised : Interface),
     namesMatchInterfaces
       (AerodynamicCoefficientInterface_construct _ _ _ referenceLength referenceArea
          momentReferencePoint names forceFrame momentFrame uninitialised))
  /\ (forall self name (controlSurface : ControlSurface),
        namesMatchInterfaces self ->
        namesMatchInterfaces (addControlSurface _ _ _ name controlSurface self)).
Proof.
  split.
  - intros. intros name. unfold getControlSurfaceNames. simpl.
    rewrite lookup_empty. split; [intros Hin; by apply elem_of_nil in Hin | intros [x Hx]; done].
  - intros self name controlSurface Hmatch other.
    unfold getControlSurfaceNames, addControlSurface. simpl.
    rewrite elem_of_app, list_elem_of_singleton.
    destruct (decide (other = name)) as [->|Hne].
    + rewrite lookup_insert_eq. split; [by eexists | by right].
    + rewrite lookup_insert_ne by done. rewrite <- (Hmatch other).
      unfold getControlSurfaceNames. split; [by intros [Hin|Heq] | by left].
Qed.


Variable controlSurfaceCoefficients : ControlSurface -> list R -> Vector3d * Vector3d.

(** X22: [updateCurrentControlSurfaceCoefficientsCoefficients] throws a
    runtime error for a control surface without interface; otherwise it
    returns, the increments it stored are the ones
    [getCurrentForceCoefficientIncrement] and
    [getCurrentMomentCoefficientIncrement] return for that surface, the
    current coefficients have grown by exactly these increments, and the
    increments of every other surface are as before. *)
Theorem updateCurrentControlSurface_round_trip self name (variables : list R) :
  (controlSurfaceIncrementInterfaces_ _ _ _ self !! name = None ->
   updateCurrentControlSurfaceCoefficientsCoefficients _ _ _ controlSurfaceCoefficients
     name variables self = Throws std_runtime_error)
  /\ (forall controlSurface,
        controlSurfaceIncrementInterfaces_ _ _ _ self !! name = Some controlSurface ->
        let increments := controlSurfaceCoefficients controlSurface variables in
        exists self',
          updateCurrentControlSurfaceCoefficientsCoefficients _ _ _ controlSurfaceCoefficients
            name variables self = Returns self'
          /\ getCurrentForceCoefficientIncrement _ _ _ self' name = Returns increments.1
          /\ getCurrentMomentCoefficientIncrement _ _ _ self' name = Returns increments.2
          /\ currentForceCoefficients_ _ _ _ self'
             = (currentForceCoefficients_ _ _ _ self + increments.1)%vec
          /\ currentMomentCoefficients_ _ _ _ self'
             = (currentMomentCoefficients_ _ _ _ self + increments.2)%vec
          /\ forall other, other <> name ->
               getCurrentForceCoefficientIncrement _ _ _ self' other
               = getCurrentForceCoefficientIncrement _ _ _ self other
               /\ getCurrentMomentCoefficientIncrement _ _ _ self' other
                  = getCurrentMomentCoefficientIncrement _ _ _ self other).
Proof.
  unfold updateCurrentControlSurfaceCoefficientsCoefficients, map_count, map_at.
  split.
  - by intros ->.
  - intros controlSurface Hlookup. cbv zeta. rewrite Hlookup.
    destruct (controlSurfaceCoefficients controlSurface variables)
      as [forceCoefficients momentCoefficients].
    simpl. rewrite !lookup_insert_eq. eexists. split; [reflexivity|].
    unfold getCurrentForceCoefficientIncrement, getCurrentMomentCoefficientIncrement,
      map_count, map_at. simpl.
    rewrite !lookup_insert_eq. simpl. repeat split; try done.
    all: by rewrite lookup_insert_ne.
Qed.

End CoefficientInterfaceProperties.

Section CoefficientInterfaceExamples.

Local Open Scope R_scope.
Local Open Scope string_scope.

Lemma addControlSurface_names_match_example :
  namesMatchInterfaces (addControlSurface nat nat unit "elevon" 1%nat exampleInterface).
Proof.
  destruct (@addControlSurface_names_match nat nat unit) as [Hconstructed Hadd].
  apply Hadd. apply Hconstructed.
Defined.

Lemma updateCurrentControlSurface_round_trip_example :
  let self := addControlSurface nat nat unit "elevon" 1%nat exampleInterface in
  updateCurrentControlSurfaceCoefficientsCoefficients nat nat unit exampleSurfaceCoefficients
    "rudder" [] self = Throws std_runtime_error
  /\ exists self',
       updateCurrentControlSurfaceCoefficientsCoefficients nat nat unit
         exampleSurfaceCoefficients "elevon" [] self = Returns self'
       /\ getCurrentForceCoefficientIncrement nat nat unit self' "elevon"
          = Returns (Vector3d_of (INR 1) 0 0).
Proof.
  intros self.
  destruct (updateCurrentControlSurface_round_trip exampleSurfaceCoefficients self
              "rudder" []) as [Hmissing _].
  destruct (updateCurrentControlSurface_round_trip exampleSurfaceCoefficients self
              "elevon" []) as [_ Hpresent].
  split.
  - by apply Hmissing.
  - destruct (Hpresent 1%nat) as (self' & Hupdate & Hforce & _); [done|].
    by exists self'.
Defined.

End CoefficientInterfaceExamples.

(* ================================================================== *)
(** * Properties of the sizes and orders of the state types            *)
(* ================================================================== *)

(** X23: every state type for which
    [getSingleIntegrationDifferentialEquationOrder] returns an order has
    a size according to [getSingleIntegrationSize], a positive multiple
    of the order; the converse fails, as the rotational state has size 7
    and asking for its order throws a runtime error. *)
Theorem getSingleIntegration_order_and_size (stateType : IntegratedStateType) :
  (forall order : Z,
     getSingleIntegrationDifferentialEquationOrder stateType = Returns order ->
     exists size : Z,
       getSingleIntegrationSize stateType = Returns size
       /\ (0 < order <= size)%Z /\ (order | size)%Z)
  /\ (getSingleIntegrationSize stateType = Throws std_runtime_error ->
      getSingleIntegrationDifferentialEquationOrder stateType = Throws std_runtime_error)
  /\ getSingleIntegrationSize rotational_state = Returns 7%Z
  /\ getSingleIntegrationDifferentialEquationOrder rotational_state
     = Throws std_runtime_error.
Proof.
  repeat split; try (by destruct stateType).
  intros order Horder. destruct stateType; simplify_eq/=.
  - exists 6%Z. repeat split; try lia. by exists 3%Z.
  - exists 1%Z. repeat split; try lia. by exists 1%Z.
Qed.

Lemma getSingleIntegration_order_and_size_example :
  exists size : Z,
    getSingleIntegrationSize translational_state = Returns size
    /\ (0 < 2 <= size)%Z /\ (2 | size)%Z.
Proof.
  destruct (getSingleIntegration_order_and_size translational_state) as [Horder _].
  by apply Horder.
Defined.

(* ================================================================== *)
(** * Properties of the exponential atmosphere                         *)
(* ================================================================== *)

Section ExponentialAtmosphereProperties.

Local Open Scope R_scope.

Implicit Types (self : ExponentialAtmosphere).

(** X24: with a positive density at zero altitude and a positive scale
    height, [getDensity] is that density at altitude zero, positive at
    every altitude, and strictly smaller at the higher of two altitudes,
    whatever the longitudes, latitudes and times. *)
Theorem getDensity_decreases self (lowAltitude highAltitude : R)
    (longitude latitude time longitude' latitude' time' : R) :
  0 < densityAtZeroAltitude_ self ->
  0 < scaleHeight_ self ->
  lowAltitude < highAltitude ->
  getDensity self 0 longitude latitude time = densityAtZeroAltitude_ self
  /\ 0 < getDensity self highAltitude longitude' latitude' time'
  /\ getDensity self highAltitude longitude' latitude' time'
     < getDensity self lowAltitude longitude latitude time.
Proof.
  intros Hdensity Hscale Haltitude. unfold getDensity. repeat split.
  - replace (- 0 / scaleHeight_ self) with 0 by (field; lra).
    rewrite exp_0. lra.
  - apply Rmult_lt_0_compat; [done | apply exp_pos].
  - apply Rmult_lt_compat_l; [done|]. apply exp_increasing.
    unfold Rdiv. apply Rmult_lt_compat_r; [by apply Rinv_0_lt_compat | lra].
Qed.

(** X25: [getDensity] falls by the factor [e] for every scale height of
    altitude gained, and the densities at two altitudes multiply to the
    density at zero altitude times the density at the sum of the
    altitudes. *)
Theorem getDensity_scale_height self (altitude altitude' longitude latitude time : R) :
  scaleHeight_ self <> 0 ->
  getDensity self (altitude + scaleHeight_ self) longitude latitude time
  = getDensity self altitude longitude latitude time * exp (- 1)
  /\ getDensity self altitude longitude latitude time
     * getDensity self altitude' longitude latitude time
     = densityAtZeroAltitude_ self
       * getDensity self (altitude + altitude') longitude latitude time.
Proof.
  intros Hscale. unfold getDensity. split.
  - replace (- (altitude + scaleHeight_ self) / scaleHeight_ self)
      with (- altitude / scaleHeight_ self + - 1) by (field; done).
    rewrite exp_plus. ring.
  - replace (- (altitude + altitude') / scaleHeight_ self)
      with (- altitude / scaleHeight_ self + - altitude' / scaleHeight_ self)
      by (field; done).
    rewrite exp_plus. ring.
Qed.

End ExponentialAtmosphereProperties.

Lemma getDensity_decreases_example :
  getDensity exampleAtmosphere 0 0 0 0 = (1225 / 1000)%R
  /\ (0 < getDensity exampleAtmosphere 10000 1 1 1)%R
  /\ (getDensity exampleAtmosphere 10000 1 1 1 < getDensity exampleAtmosphere 5000 0 0 0)%R.
Proof.
  apply (getDensity_decreases exampleAtmosphere 5000 10000 0 0 0 1 1 1); simpl; lra.
Defined.

Lemma getDensity_scale_height_example :
  getDensity exampleAtmosphere (1000 + scaleHeight_ exampleAtmosphere) 0 0 0
  = (getDensity exampleAtmosphere 1000 0 0 0 * exp (- 1))%R
  /\ (getDensity exampleAtmosphere 1000 0 0 0 * getDensity exampleAtmosphere 2000 0 0 0)%R
     = (densityAtZeroAltitude_ exampleAtmosphere
        * getDensity exampleAtmosphere (1000 + 2000) 0 0 0)%R.
Proof.
  apply (getDensity_scale_height exampleAtmosphere 1000 2000 0 0 0). simpl. lra.
Defined.
